(** * The PR notification pipeline of agentic-cicd

    A shallow embedding of [github_webhook_handler.py] and
    [ai_email_agent.py] (with the webhook endpoint of [task_api.py]),
    followed by the properties of the signature verifier, the event
    extractor, the content generator, the delivery agent and the webhook
    handler.

    Conventions.
    - A Python [str] is a [string] holding its UTF-8 encoding; [bytes] is
      a [string] as well.  Concatenation, equality, search and splitting
      at an ASCII separator commute with the encoding.
    - A JSON-shaped Python value is a [pyval]; a [dict] with [str] keys is
      an association list read by its first binding for a key.
    - Code that logs, reads the clock, raises or talks to a service runs in
      the monad [M]: a [world] goes in, a [result] and a [world] come out.
      What an exception handler sees of the world is what the body left.
    - Library functions whose result is not computed here ([json.loads],
      [repr] of a [str]) are the fields of [Library]; the surroundings
      (clock, text backend, mail transport, MIME writer with its random
      boundary) are fields of the [world]. *)

From Stdlib Require Import String Ascii ZArith NArith List Bool Lia DecimalString.
Import ListNotations.

#[local] Set Warnings "-register-all".
#[local] Open Scope string_scope.

(* ================================================================= *)
(** ** SHA-256 and HMAC (FIPS 180-4, RFC 2104) on lists of bytes *)

Module Sha256.
#[local] Open Scope Z_scope.
#[local] Open Scope list_scope.

Definition w32 (x : Z) : Z := x mod 4294967296.
Definition add32 (a b : Z) : Z := w32 (a + b).
Definition rotr (n x : Z) : Z := Z.lor (Z.shiftr x n) (w32 (Z.shiftl x (32 - n))).
Definition not32 (x : Z) : Z := 4294967295 - x.

Definition Ch (x y z : Z) : Z := Z.lxor (Z.land x y) (Z.land (not32 x) z).
Definition Maj (x y z : Z) : Z :=
  Z.lxor (Z.lxor (Z.land x y) (Z.land x z)) (Z.land y z).
Definition Sigma0 (x : Z) : Z := Z.lxor (Z.lxor (rotr 2 x) (rotr 13 x)) (rotr 22 x).
Definition Sigma1 (x : Z) : Z := Z.lxor (Z.lxor (rotr 6 x) (rotr 11 x)) (rotr 25 x).
Definition sigma0 (x : Z) : Z := Z.lxor (Z.lxor (rotr 7 x) (rotr 18 x)) (Z.shiftr x 3).
Definition sigma1 (x : Z) : Z := Z.lxor (Z.lxor (rotr 17 x) (rotr 19 x)) (Z.shiftr x 10).

(** The round constants: the first 32 bits of the fractional parts of the
    cube roots of the first 64 primes. *)
Definition K : list Z :=
  [ 1116352408; 1899447441; 3049323471; 3921009573; 961987163; 1508970993;
    2453635748; 2870763221; 3624381080; 310598401; 607225278; 1426881987;
    1925078388; 2162078206; 2614888103; 3248222580; 3835390401; 4022224774;
    264347078; 604807628; 770255983; 1249150122; 1555081692; 1996064986;
    2554220882; 2821834349; 2952996808; 3210313671; 3336571891; 3584528711;
    113926993; 338241895; 666307205; 773529912; 1294757372; 1396182291;
    1695183700; 1986661051; 2177026350; 2456956037; 2730485921; 2820302411;
    3259730800; 3345764771; 3516065817; 3600352804; 4094571909; 275423344;
    430227734; 506948616; 659060556; 883997877; 958139571; 1322822218;
    1537002063; 1747873779; 1955562222; 2024104815; 2227730452; 2361852424;
    2428436474; 2756734187; 3204031479; 3329325298 ].

(** The initial hash value: the same for the square roots of the first
    8 primes. *)
Definition H0 : list Z :=
  [ 1779033703; 3144134277; 1013904242; 2773480762; 1359893119; 2600822924;
    528734635; 1541459225 ].

(** The message, a 1 bit, zeros up to 56 mod 64, the bit length on 8 bytes. *)
Definition padding (msg : list Z) : list Z :=
  let len := Z.of_nat (length msg) in
  let k := (55 - len) mod 64 in
  let bits := 8 * len in
  msg ++ [128] ++ repeat 0 (Z.to_nat k)
      ++ map (fun i => Z.shiftr bits (8 * (7 - Z.of_nat i)) mod 256) (seq 0 8).

Fixpoint words (n : nat) (bs : list Z) : list Z :=
  match n, bs with
  | S n', b0 :: b1 :: b2 :: b3 :: rest =>
      (b0 * 16777216 + b1 * 65536 + b2 * 256 + b3) :: words n' rest
  | _, _ => []
  end.

(** The message schedule, latest word first. *)
Fixpoint schedule (n : nat) (w : list Z) : list Z :=
  match n with
  | O => w
  | S n' =>
      let next :=
        add32 (add32 (sigma1 (nth 1 w 0)) (nth 6 w 0))
              (add32 (sigma0 (nth 14 w 0)) (nth 15 w 0)) in
      schedule n' (next :: w)
  end.

Definition round (st : list Z) (kw : Z * Z) : list Z :=
  match st with
  | [a; b; c; d; e; f; g; h] =>
      let t1 := add32 (add32 (add32 h (Sigma1 e)) (add32 (Ch e f g) (fst kw))) (snd kw) in
      let t2 := add32 (Sigma0 a) (Maj a b c) in
      [add32 t1 t2; a; b; c; add32 d t1; e; f; g]
  | _ => st
  end.

Definition compress (st : list Z) (block : list Z) : list Z :=
  let w := rev (schedule 48 (rev (words 16 block))) in
  let st' := fold_left round (combine K w) st in
  map (fun p => add32 (fst p) (snd p)) (combine st st').

Fixpoint blocks (n : nat) (bs : list Z) (st : list Z) : list Z :=
  match n with
  | O => st
  | S n' =>
      match bs with
      | [] => st
      | _ => blocks n' (skipn 64 bs) (compress st (firstn 64 bs))
      end
  end.

Definition word_bytes (x : Z) : list Z :=
  [Z.shiftr x 24 mod 256; Z.shiftr x 16 mod 256; Z.shiftr x 8 mod 256; x mod 256].

Definition digest (msg : list Z) : list Z :=
  let p := padding msg in
  flat_map word_bytes (blocks (length p) p H0).

Definition hmac (key msg : list Z) : list Z :=
  let key0 := if (64 <? Z.of_nat (length key)) then digest key else key in
  let key1 := key0 ++ repeat 0 (64 - length key0) in
  let ipad := map (Z.lxor 54) key1 in
  let opad := map (Z.lxor 92) key1 in
  digest (opad ++ digest (ipad ++ msg)).

Definition bytes_of (s : string) : list Z :=
  map (fun c => Z.of_nat (nat_of_ascii c)) (list_ascii_of_string s).

Definition hex_digit (d : Z) : ascii :=
  ascii_of_nat (Z.to_nat (if d <? 10 then 48 + d else 87 + d)).

Fixpoint hex (bs : list Z) : string :=
  match bs with
  | [] => EmptyString
  | b :: rest => String (hex_digit (b / 16)) (String (hex_digit (b mod 16)) (hex rest))
  end.

End Sha256.

(* ================================================================= *)
(** ** Python values and built-ins *)

Module Py.

Inductive pyval : Type :=
| PNone
| PBool (b : bool)
| PInt (z : Z)
| PFloat (shown : string)          (* a float, by its [repr] *)
| PStr (s : string)
| PList (l : list pyval)
| PDict (d : list (string * pyval)).

Definition dict : Type := list (string * pyval).

Inductive exn_class : Type :=
| AttributeError
| TypeError
| ValueError
| JSONDecodeError                  (* subclass of ValueError *)
| UnicodeDecodeError               (* subclass of ValueError *)
| IndexError
| KeyError
| LibraryError (name : string).    (* any other subclass of Exception *)

Inductive exn : Type :=
| PyExc (cls : exn_class) (msg : string)
| HTTPException (status_code : Z) (detail : string).

Inductive result (A : Type) : Type :=
| Ok (a : A)
| Raise (e : exn).
Arguments Ok {A} a.
Arguments Raise {A} e.

(** [isinstance(e, HTTPException)] *)
Definition is_HTTPException (e : exn) : bool :=
  match e with HTTPException _ _ => true | PyExc _ _ => false end.

(** [isinstance(e, json.JSONDecodeError)] *)
Definition is_JSONDecodeError (e : exn) : bool :=
  match e with PyExc JSONDecodeError _ => true | _ => false end.

(** [isinstance(e, (json.JSONDecodeError, ValueError))] *)
Definition is_ValueError (e : exn) : bool :=
  match e with
  | PyExc (ValueError | JSONDecodeError | UnicodeDecodeError) _ => true
  | _ => false
  end.

(** [isinstance(e, Exception)]: every exception of the model. *)
Definition is_Exception (_ : exn) : bool := true.

(** The library functions taken as given. *)
Class Library : Type := {
  (** [json.loads(s)] for a [str] [s] *)
  json_loads : string -> result pyval;
  (** [repr(s)] for a [str] [s] *)
  str_repr : string -> string
}.

(** [hmac.new(key, msg, hashlib.sha256).hexdigest()] *)
Definition hmac_sha256_hexdigest (key msg : string) : string :=
  Sha256.hex (Sha256.hmac (Sha256.bytes_of key) (Sha256.bytes_of msg)).

Definition dq : string := String (ascii_of_nat 34) EmptyString.
Definition nl : string := String (ascii_of_nat 10) EmptyString.

Definition str_of_Z (z : Z) : string := NilZero.string_of_int (Z.to_int z).
Definition str_of_N (n : N) : string := NilZero.string_of_uint (N.to_uint n).

(** [sep.join(parts)] for a list of [str] *)
Definition join (sep : string) (parts : list string) : string :=
  String.concat sep parts.

Section Rendering.
Context {lib : Library}.

(** [repr(v)] *)
Fixpoint py_repr (v : pyval) : string :=
  match v with
  | PNone => "None"
  | PBool b => if b then "True" else "False"
  | PInt z => str_of_Z z
  | PFloat shown => shown
  | PStr s => str_repr s
  | PList l => "[" ++ join ", " (map py_repr l) ++ "]"
  | PDict d =>
      "{" ++ join ", "
               (map (fun kv => match kv with
                               | (k, x) => str_repr k ++ ": " ++ py_repr x
                               end) d) ++ "}"
  end.

(** [str(v)], which is what an f-string field [{v}] renders *)
Definition py_str (v : pyval) : string :=
  match v with
  | PStr s => s
  | _ => py_repr v
  end.

(** [str(e)] for an exception *)
Definition exn_str (e : exn) : string :=
  match e with
  | PyExc _ msg => msg
  | HTTPException c d => str_of_Z c ++ ": " ++ d
  end.
End Rendering.

(** [type(v).__name__] *)
Definition type_name (v : pyval) : string :=
  match v with
  | PNone => "NoneType"
  | PBool _ => "bool"
  | PInt _ => "int"
  | PFloat _ => "float"
  | PStr _ => "str"
  | PList _ => "list"
  | PDict _ => "dict"
  end.

(** [bool(v)] *)
Definition truthy (v : pyval) : bool :=
  match v with
  | PNone => false
  | PBool b => b
  | PInt z => negb (z =? 0)%Z
  | PFloat shown => negb ((shown =? "0.0") || (shown =? "-0.0"))
  | PStr s => negb (s =? "")
  | PList l => match l with [] => false | _ => true end
  | PDict d => match d with [] => false | _ => true end
  end.

(** [bool(x)] for an [Optional[str]] *)
Definition truthy_opt (x : option string) : bool :=
  match x with
  | None => false
  | Some s => negb (s =? "")
  end.

(** [v == s] for a [str] literal [s] *)
Definition eq_str (v : pyval) (s : string) : bool :=
  match v with
  | PStr t => t =? s
  | _ => false
  end.

(** The first binding of [k] in [d]. *)
Fixpoint lookup (d : dict) (k : string) : option pyval :=
  match d with
  | [] => None
  | (k', v) :: rest => if k' =? k then Some v else lookup rest k
  end.

(** [d.get(k, default)] on a [dict] *)
Definition dict_get (d : dict) (k : string) (default : pyval) : pyval :=
  match lookup d k with
  | Some v => v
  | None => default
  end.

(** [k in d] on a [dict] *)
Definition has_key (d : dict) (k : string) : bool :=
  match lookup d k with Some _ => true | None => false end.

(** [v.get(k, default)] on any value: only a [dict] has [get]. *)
Definition py_get (v : pyval) (k : string) (default : pyval) : result pyval :=
  match v with
  | PDict d => Ok (dict_get d k default)
  | _ => Raise (PyExc AttributeError
                  ("'" ++ type_name v ++ "' object has no attribute 'get'"))
  end.

(** [v[k]] for a [str] literal [k] *)
Definition py_getitem (v : pyval) (k : string) : result pyval :=
  match v with
  | PDict d =>
      match lookup d k with
      | Some x => Ok x
      | None => Raise (PyExc KeyError ("'" ++ k ++ "'"))
      end
  | PStr _ => Raise (PyExc TypeError "string indices must be integers")
  | PList _ => Raise (PyExc TypeError "list indices must be integers or slices, not str")
  | _ => Raise (PyExc TypeError
                  ("'" ++ type_name v ++ "' object is not subscriptable"))
  end.

(** The keys of a [dict], each once, in the order of their first binding. *)
Fixpoint keys_from (seen : list string) (d : dict) : list string :=
  match d with
  | [] => []
  | (k, _) :: rest =>
      if existsb (String.eqb k) seen then keys_from seen rest
      else k :: keys_from (k :: seen) rest
  end.

Definition keys (d : dict) : list string := keys_from [] d.

(** The elements of a list when all of them are [str]. *)
Fixpoint all_str (l : list pyval) : option (list string) :=
  match l with
  | [] => Some []
  | PStr s :: rest =>
      match all_str rest with
      | Some ss => Some (s :: ss)
      | None => None
      end
  | _ :: _ => None
  end.

(** [needle in hay] for two [str] *)
Fixpoint substring_of (needle hay : string) : bool :=
  if String.prefix needle hay then true
  else match hay with
       | EmptyString => false
       | String _ rest => substring_of needle rest
       end.

(** [k in v] for a [str] literal [k] and any value [v] *)
Definition py_contains (k : string) (v : pyval) : result bool :=
  match v with
  | PDict d => Ok (has_key d k)
  | PList l => Ok (existsb (fun x => eq_str x k) l)
  | PStr s => Ok (substring_of k s)
  | _ => Raise (PyExc TypeError
                  ("argument of type '" ++ type_name v ++ "' is not iterable"))
  end.

(** [s.split(sep, 1)] for a one-character separator: the part before the
    first [sep] and, when there is one, the part after it. *)
Fixpoint split_once (sep : ascii) (s : string) : string * option string :=
  match s with
  | EmptyString => (EmptyString, None)
  | String c rest =>
      if Ascii.eqb c sep then (EmptyString, Some rest)
      else let (a, b) := split_once sep rest in (String c a, b)
  end.

(** Is every character of [s] ASCII? *)
Fixpoint is_ascii (s : string) : bool :=
  match s with
  | EmptyString => true
  | String c rest => (nat_of_ascii c <? 128)%nat && is_ascii rest
  end.

(** [hmac.compare_digest(a, b)] for two [str]: both must be ASCII. *)
Definition compare_digest (a b : string) : result bool :=
  if is_ascii a && is_ascii b then Ok (a =? b)
  else Raise (PyExc TypeError
                "comparing strings with non-ASCII characters is not supported").

(** *** UTF-8 *)

Definition byte_in (lo hi : nat) (c : ascii) : bool :=
  let n := nat_of_ascii c in ((lo <=? n) && (n <=? hi))%nat.

Definition is_cont (c : ascii) : bool := byte_in 128 191 c.

(** Well-formed UTF-8 (no overlong forms, no surrogates, at most U+10FFFF),
    which is what [bytes.decode('utf-8')] accepts. *)
Fixpoint utf8_valid_from (fuel : nat) (s : string) : bool :=
  match fuel with
  | O => match s with EmptyString => true | _ => false end
  | S fuel' =>
      match s with
      | EmptyString => true
      | String c0 r0 =>
          if byte_in 0 127 c0 then utf8_valid_from fuel' r0
          else match r0 with
          | EmptyString => false
          | String c1 r1 =>
              if byte_in 194 223 c0 then is_cont c1 && utf8_valid_from fuel' r1
              else match r1 with
              | EmptyString => false
              | String c2 r2 =>
                  if byte_in 224 239 c0 then
                    (if byte_in 224 224 c0 then byte_in 160 191 c1
                     else if byte_in 237 237 c0 then byte_in 128 159 c1
                     else is_cont c1)
                    && is_cont c2 && utf8_valid_from fuel' r2
                  else match r2 with
                  | EmptyString => false
                  | String c3 r3 =>
                      byte_in 240 244 c0
                      && (if byte_in 240 240 c0 then byte_in 144 191 c1
                          else if byte_in 244 244 c0 then byte_in 128 143 c1
                          else is_cont c1)
                      && is_cont c2 && is_cont c3 && utf8_valid_from fuel' r3
                  end
              end
          end
      end
  end.

Definition utf8_valid (s : string) : bool := utf8_valid_from (String.length s) s.

(** [b.decode('utf-8')] *)
Definition decode_utf8 (b : string) : result string :=
  if utf8_valid b then Ok b
  else Raise (PyExc UnicodeDecodeError "'utf-8' codec can't decode bytes").

(** The characters of a [str]: a character starts at every byte that is
    not a continuation byte. *)
Fixpoint chars_acc (cur : string) (s : string) : list string :=
  match s with
  | EmptyString => match cur with EmptyString => [] | _ => [cur] end
  | String c rest =>
      if is_cont c then chars_acc (cur ++ String c EmptyString) rest
      else match cur with
           | EmptyString => chars_acc (String c EmptyString) rest
           | _ => cur :: chars_acc (String c EmptyString) rest
           end
  end.

Definition chars (s : string) : list string := chars_acc EmptyString s.

(** [sep.join(v)] for any value [v] *)
Definition py_join (sep : string) (v : pyval) : result string :=
  match v with
  | PList l =>
      match all_str l with
      | Some ss => Ok (join sep ss)
      | None => Raise (PyExc TypeError "sequence item: expected str instance")
      end
  | PStr s => Ok (join sep (chars s))
  | PDict d => Ok (join sep (keys d))
  | _ => Raise (PyExc TypeError "can only join an iterable")
  end.

(** *** datetime *)

Record datetime : Type := {
  year : N; month : N; day : N;
  hour : N; minute : N; second : N; microsecond : N
}.

Fixpoint zeros (n : nat) : string :=
  match n with O => EmptyString | S n' => String "0" (zeros n') end.

(** [n] in decimal, left-padded with zeros to [width] digits *)
Definition pad (width : nat) (n : N) : string :=
  let s := str_of_N n in zeros (width - String.length s) ++ s.

(** [t.isoformat()] *)
Definition isoformat (t : datetime) : string :=
  pad 4 (year t) ++ "-" ++ pad 2 (month t) ++ "-" ++ pad 2 (day t) ++ "T"
  ++ pad 2 (hour t) ++ ":" ++ pad 2 (minute t) ++ ":" ++ pad 2 (second t)
  ++ (if (microsecond t =? 0)%N then "" else "." ++ pad 6 (microsecond t)).

(** [t.strftime('%Y-%m-%d %H:%M:%S')] (years of four digits) *)
Definition strftime_ymd_hms (t : datetime) : string :=
  pad 4 (year t) ++ "-" ++ pad 2 (month t) ++ "-" ++ pad 2 (day t) ++ " "
  ++ pad 2 (hour t) ++ ":" ++ pad 2 (minute t) ++ ":" ++ pad 2 (second t).

(** *** The process environment *)

Definition environ : Type := list (string * string).

(** [os.getenv(name)] *)
Fixpoint getenv (env : environ) (name : string) : option string :=
  match env with
  | [] => None
  | (k, v) :: rest => if k =? name then Some v else getenv rest name
  end.

(** [os.getenv(name, default)] *)
Definition getenv_or (env : environ) (name default : string) : string :=
  match getenv env name with
  | Some v => v
  | None => default
  end.

End Py.

(* ================================================================= *)
(** ** Effects: log, clock, text backend, mail transport, deferred work *)

Module Eff.
Import Py.

Inductive level : Type := INFO | WARNING | ERROR.

Record log_record : Type := { lvl : level; text : string }.

(** The arguments of [chat.completions.create]. *)
Record completion_request : Type := {
  model : string;
  system_content : string;
  user_content : string;
  temperature : string;
  max_tokens : Z
}.

(** The operations of one [smtplib.SMTP] session. *)
Inductive smtp_op : Type :=
| SMTP_connect (host : string) (port : Z)
| SMTP_starttls
| SMTP_login (user password : option string)
| SMTP_sendmail (from_addr : option string) (to_addr : string) (msg : string)
| SMTP_quit.

(** What the surroundings will answer. *)
Record surroundings : Type := {
  (** the [n]-th reading of [datetime.utcnow()] *)
  clock : nat -> datetime;
  (** the text backend: an exception, or [choices[0].message.content] *)
  backend : completion_request -> result (option string);
  (** the mail transport: the exception an operation ends in, if any *)
  transport : smtp_op -> option exn;
  (** [msg.as_string()] for the multipart message with the given
      [Subject], [From], [To] and HTML part *)
  mime_as_string : pyval -> option string -> string -> string -> result string
}.

(** The world a call runs in: the surroundings, and the record of what
    the code did. *)
Record world : Type := {
  env : surroundings;
  ticks : nat;
  log : list log_record;
  completions : list completion_request;
  mail : list smtp_op;
  background : list pyval
}.

Definition M (A : Type) : Type := world -> result A * world.

Definition ret {A} (a : A) : M A := fun w => (Ok a, w).

Definition raise {A} (e : exn) : M A := fun w => (Raise e, w).

Definition bind {A B} (c : M A) (k : A -> M B) : M B :=
  fun w => match c w with
           | (Ok a, w') => k a w'
           | (Raise e, w') => (Raise e, w')
           end.

(** [try: c except <classes> as e: h e] *)
Definition try_except {A} (c : M A) (classes : exn -> bool) (h : exn -> M A) : M A :=
  fun w => match c w with
           | (Ok a, w') => (Ok a, w')
           | (Raise e, w') => if classes e then h e w' else (Raise e, w')
           end.

(** A pure computation that may raise. *)
Definition lift {A} (r : result A) : M A := fun w => (r, w).

Definition logger (l : level) (msg : string) : M unit :=
  fun w => (Ok tt,
            {| env := env w; ticks := ticks w;
               log := log w ++ [{| lvl := l; text := msg |}];
               completions := completions w; mail := mail w;
               background := background w |}).

(** The reading [datetime.utcnow()] gives next. *)
Definition now (w : world) : datetime := clock (env w) (ticks w).

Definition utcnow : M datetime :=
  fun w => (Ok (now w),
            {| env := env w; ticks := S (ticks w);
               log := log w;
               completions := completions w; mail := mail w;
               background := background w |}).

(** [client.chat.completions.create(...)] and then
    [response.choices[0].message.content] *)
Definition chat_completion (rq : completion_request) : M (option string) :=
  fun w => (backend (env w) rq,
            {| env := env w; ticks := ticks w;
               log := log w;
               completions := completions w ++ [rq]; mail := mail w;
               background := background w |}).

(** One operation on the mail transport. *)
Definition smtp (op : smtp_op) : M unit :=
  fun w => (match transport (env w) op with
            | Some e => Raise e
            | None => Ok tt
            end,
            {| env := env w; ticks := ticks w;
               log := log w;
               completions := completions w; mail := mail w ++ [op];
               background := background w |}).

(** [msg.as_string()] *)
Definition as_string (subject : pyval) (sender : option string)
    (recipient html : string) : M string :=
  fun w => (mime_as_string (env w) subject sender recipient html, w).

(** [background_tasks.add_task(process_pr_notification, pr_data)] *)
Definition add_task (pr_data : pyval) : M unit :=
  fun w => (Ok tt,
            {| env := env w; ticks := ticks w;
               log := log w;
               completions := completions w; mail := mail w;
               background := background w ++ [pr_data] |}).

Module Notations.
Notation "x <- c ;; k" := (bind c (fun x => k))
  (at level 61, c at next level, right associativity).
Notation "c ;; k" := (bind c (fun _ => k))
  (at level 61, right associativity).
End Notations.

End Eff.

(* ================================================================= *)
(** ** ai_email_agent.py *)

Module Agent.
Import Py Eff Eff.Notations.

(** The configuration [AIEmailAgent.__init__] reads from the
    environment.  The endpoint, key and API version of the client are part
    of the world's [backend]. *)
Record AIEmailAgent : Type := {
  deployment_name : string;
  smtp_server : string;
  smtp_port : Z;
  email_username : option string;
  email_password : option string;
  from_email : option string;
  project_name : string;
  project_owner : string;
  owner_email : option string
}.

Section WithLibrary.
Context {lib : Library}.

Definition system_message : string :=
  "You are an AI assistant specialized in generating professional technical email notifications for software development projects. Always respond with valid JSON containing 'subject' and 'body' keys.".

(** The f-string [prompt] of [generate_pr_email_content];
    [files_text] is its one conditional field. *)
Definition prompt_text (self : AIEmailAgent)
    (pr_title pr_number pr_author branch_from branch_to pr_description pr_url : pyval)
    (files_text : string) : string :=
  nl ++
  "            Generate a professional and informative email notification for a new pull request in the " ++ project_name self ++ " project." ++ nl ++
  "            " ++ nl ++
  "            PR Details:" ++ nl ++
  "            - Title: " ++ py_str pr_title ++ nl ++
  "            - PR Number: #" ++ py_str pr_number ++ nl ++
  "            - Author: " ++ py_str pr_author ++ nl ++
  "            - From Branch: " ++ py_str branch_from ++ nl ++
  "            - To Branch: " ++ py_str branch_to ++ nl ++
  "            - Description: " ++ py_str pr_description ++ nl ++
  "            - Files Changed: " ++ files_text ++ nl ++
  "            - PR URL: " ++ py_str pr_url ++ nl ++
  "            " ++ nl ++
  "            Requirements:" ++ nl ++
  "            1. Create a compelling subject line (max 80 characters)" ++ nl ++
  "            2. Generate a professional email body that includes:" ++ nl ++
  "               - Greeting to the project owner" ++ nl ++
  "               - Summary of the PR" ++ nl ++
  "               - Key changes or features" ++ nl ++
  "               - Call to action for review" ++ nl ++
  "               - Professional closing" ++ nl ++
  "            3. Use a professional but friendly tone" ++ nl ++
  "            4. Include relevant technical details" ++ nl ++
  "            5. Format as HTML for better presentation" ++ nl ++
  "            " ++ nl ++
  "            Return the response in JSON format with 'subject' and 'body' keys." ++ nl ++
  "            ".

(** The f-string [body] of [_generate_fallback_email], stamped [stamp]. *)
Definition fallback_body (self : AIEmailAgent) (pr_data : dict)
    (pr_title pr_number pr_author pr_url : pyval) (stamp : datetime) : string :=
  nl ++
  "        <html>" ++ nl ++
  "        <body>" ++ nl ++
  "            <h2>🚀 New Pull Request Notification</h2>" ++ nl ++
  "            " ++ nl ++
  "            <p>Hello " ++ project_owner self ++ ",</p>" ++ nl ++
  "            " ++ nl ++
  "            <p>A new pull request has been created for the <strong>" ++ project_name self ++ "</strong> project:</p>" ++ nl ++
  "            " ++ nl ++
  "            <div style=" ++ dq ++ "background: #f8f9fa; padding: 15px; border-radius: 8px; margin: 15px 0;" ++ dq ++ ">" ++ nl ++
  "                <h3>📋 PR Details</h3>" ++ nl ++
  "                <ul>" ++ nl ++
  "                    <li><strong>Title:</strong> " ++ py_str pr_title ++ "</li>" ++ nl ++
  "                    <li><strong>PR Number:</strong> #" ++ py_str pr_number ++ "</li>" ++ nl ++
  "                    <li><strong>Author:</strong> " ++ py_str pr_author ++ "</li>" ++ nl ++
  "                    <li><strong>From:</strong> " ++ py_str (dict_get pr_data "branch_from" (PStr "feature-branch")) ++ "</li>" ++ nl ++
  "                    <li><strong>To:</strong> " ++ py_str (dict_get pr_data "branch_to" (PStr "main")) ++ "</li>" ++ nl ++
  "                </ul>" ++ nl ++
  "            </div>" ++ nl ++
  "            " ++ nl ++
  "            <p><strong>Description:</strong><br>" ++ nl ++
  "            " ++ py_str (dict_get pr_data "description" (PStr "No description provided")) ++ "</p>" ++ nl ++
  "            " ++ nl ++
  "            <p style=" ++ dq ++ "text-align: center; margin: 20px 0;" ++ dq ++ ">" ++ nl ++
  "                <a href=" ++ dq ++ py_str pr_url ++ dq ++ " style=" ++ dq ++ "background: #1f77b4; color: white; padding: 10px 20px; text-decoration: none; border-radius: 5px;" ++ dq ++ ">" ++ nl ++
  "                    👀 Review Pull Request" ++ nl ++
  "                </a>" ++ nl ++
  "            </p>" ++ nl ++
  "            " ++ nl ++
  "            <p>Please review this pull request at your earliest convenience.</p>" ++ nl ++
  "            " ++ nl ++
  "            <p>Best regards,<br>" ++ nl ++
  "            AI Agent - " ++ project_name self ++ "</p>" ++ nl ++
  "            " ++ nl ++
  "            <hr>" ++ nl ++
  "            <p style=" ++ dq ++ "font-size: 12px; color: #666;" ++ dq ++ ">" ++ nl ++
  "                This email was automatically generated by the AI Email Agent." ++ nl ++
  "                Generated at: " ++ strftime_ymd_hms stamp ++ " UTC" ++ nl ++
  "            </p>" ++ nl ++
  "        </body>" ++ nl ++
  "        </html>" ++ nl ++
  "        ".

Definition _generate_fallback_email (self : AIEmailAgent) (pr_data : dict) : M dict :=
  let pr_title := dict_get pr_data "title" (PStr "New Pull Request") in
  let pr_number := dict_get pr_data "number" (PStr "Unknown") in
  let pr_author := dict_get pr_data "author" (PStr "Unknown Author") in
  let pr_url := dict_get pr_data "url" (PStr "#") in
  let subject := "🔔 New PR #" ++ py_str pr_number ++ ": " ++ py_str pr_title in
  stamp <- utcnow ;;
  let body := fallback_body self pr_data pr_title pr_number pr_author pr_url stamp in
  ret [("subject", PStr subject); ("body", PStr body)].

(** The prompt field
    [{', '.join(files_changed) if files_changed else 'Not specified'}] *)
Definition files_changed_text (files_changed : pyval) : result string :=
  if truthy files_changed then py_join ", " files_changed
  else Ok "Not specified".

(** The request [generate_pr_email_content] submits for a prompt. *)
Definition completion_for (self : AIEmailAgent) (prompt : string) : completion_request :=
  {| model := deployment_name self;
     system_content := system_message;
     user_content := prompt;
     temperature := "0.7";
     max_tokens := 1500 |}.

(** ['k' not in v] *)
Definition lacks (k : string) (v : pyval) : result bool :=
  match py_contains k v with
  | Ok b => Ok (negb b)
  | Raise e => Raise e
  end.

(** [json.loads(ai_response)]: [None] is not a [str]. *)
Definition loads_content (ai_response : option string) : result pyval :=
  match ai_response with
  | Some s => json_loads s
  | None => Raise (PyExc TypeError
                     "the JSON object must be str, bytes or bytearray, not NoneType")
  end.

Definition generate_pr_email_content (self : AIEmailAgent) (pr_data : dict) : M pyval :=
  try_except
    (let pr_title := dict_get pr_data "title" (PStr "New Pull Request") in
     let pr_number := dict_get pr_data "number" (PStr "Unknown") in
     let pr_author := dict_get pr_data "author" (PStr "Unknown Author") in
     let pr_url := dict_get pr_data "url" (PStr "#") in
     let pr_description := dict_get pr_data "description" (PStr "No description provided") in
     let branch_from := dict_get pr_data "branch_from" (PStr "feature-branch") in
     let branch_to := dict_get pr_data "branch_to" (PStr "main") in
     let files_changed := dict_get pr_data "files_changed" (PList []) in
     files_text <- lift (files_changed_text files_changed) ;;
     let prompt := prompt_text self pr_title pr_number pr_author branch_from
                     branch_to pr_description pr_url files_text in
     ai_response <- chat_completion (completion_for self prompt) ;;
     email_content <-
       try_except
         (email_content <- lift (loads_content ai_response) ;;
          no_subject <- lift (lacks "subject" email_content) ;;
          missing <- (if (no_subject : bool) then ret true
                      else lift (lacks "body" email_content)) ;;
          if (missing : bool)
          then raise (PyExc ValueError "AI response missing required keys")
          else ret email_content)
         is_ValueError
         (fun e =>
            logger WARNING ("Failed to parse AI response as JSON: " ++ exn_str e) ;;
            fb <- _generate_fallback_email self pr_data ;;
            ret (PDict fb)) ;;
     logger INFO ("Generated AI email content for PR #" ++ py_str pr_number) ;;
     ret email_content)
    is_Exception
    (fun e =>
       logger ERROR ("Error generating AI email content: " ++ exn_str e) ;;
       fb <- _generate_fallback_email self pr_data ;;
       ret (PDict fb)).

(** [a or b] for two [Optional[str]] *)
Definition or_else (a b : option string) : option string :=
  if truthy_opt a then a else b.

(** [MIMEText(body, 'html')]: the text must be a [str]. *)
Definition MIMEText (body : pyval) : result string :=
  match body with
  | PStr s => Ok s
  | _ => Raise (PyExc AttributeError
                  ("'" ++ type_name body ++ "' object has no attribute 'encode'"))
  end.

Definition send_email (self : AIEmailAgent) (subject body : pyval)
    (to_email : option string) : M bool :=
  try_except
    (let recipient := or_else to_email (owner_email self) in
     if negb (truthy_opt recipient) then
       logger ERROR "No recipient email specified" ;;
       ret false
     else
       let recipient := match recipient with Some r => r | None => "" end in
       html_part <- lift (MIMEText body) ;;
       smtp (SMTP_connect (smtp_server self) (smtp_port self)) ;;
       smtp SMTP_starttls ;;
       smtp (SMTP_login (email_username self) (email_password self)) ;;
       text <- as_string subject (from_email self) recipient html_part ;;
       smtp (SMTP_sendmail (from_email self) recipient text) ;;
       smtp SMTP_quit ;;
       logger INFO ("Email sent successfully to " ++ recipient) ;;
       ret true)
    is_Exception
    (fun e =>
       logger ERROR ("Failed to send email: " ++ exn_str e) ;;
       ret false).

Definition process_pr_notification (self : AIEmailAgent) (pr_data : dict) : M bool :=
  try_except
    (logger INFO ("Processing PR notification for PR #"
                  ++ py_str (dict_get pr_data "number" (PStr "Unknown"))) ;;
     email_content <- generate_pr_email_content self pr_data ;;
     subject <- lift (py_getitem email_content "subject") ;;
     body <- lift (py_getitem email_content "body") ;;
     success <- send_email self subject body None ;;
     (if (success : bool)
      then logger INFO "PR notification email sent successfully"
      else logger ERROR "Failed to send PR notification email") ;;
     ret success)
    is_Exception
    (fun e =>
       logger ERROR ("Error processing PR notification: " ++ exn_str e) ;;
       ret false).

(** The sample PR of [test_email_service]. *)
Definition test_pr_data : dict :=
  [ ("title", PStr "Add new feature for task analytics");
    ("number", PInt 42);
    ("author", PStr "TestDeveloper");
    ("url", PStr "https://github.com/example/repo/pull/42");
    ("description",
     PStr "This PR adds comprehensive analytics features for task management including completion rates, time tracking, and performance metrics.");
    ("branch_from", PStr "feature/task-analytics");
    ("branch_to", PStr "main");
    ("files_changed",
     PList [PStr "task_api.py"; PStr "analytics.py"; PStr "requirements.txt"]) ].

Definition test_email_service (self : AIEmailAgent) : M dict :=
  try_except
    (email_content <- generate_pr_email_content self test_pr_data ;;
     subject <- lift (py_getitem email_content "subject") ;;
     let test_subject := "[TEST] " ++ py_str subject in
     body <- lift (py_getitem email_content "body") ;;
     let test_body :=
       "<p><strong>🧪 This is a test email</strong></p>" ++ py_str body in
     email_sent <- send_email self (PStr test_subject) (PStr test_body) None ;;
     stamp <- utcnow ;;
     ret [ ("success", PBool email_sent);
           ("message",
            PStr (if (email_sent : bool) then "Test email sent successfully"
                  else "Failed to send test email"));
           ("email_content", email_content);
           ("timestamp", PStr (isoformat stamp)) ])
    is_Exception
    (fun e =>
       stamp <- utcnow ;;
       ret [ ("success", PBool false);
             ("message", PStr ("Test failed: " ++ exn_str e));
             ("timestamp", PStr (isoformat stamp)) ]).

End WithLibrary.

(** *** Configuration *)

(** The [required_vars] of [_validate_config], in the order of the dict. *)
Definition required_vars (env : environ) (self : AIEmailAgent)
    : list (string * option string) :=
  [ ("AZURE_OPENAI_API_KEY", getenv env "AZURE_OPENAI_API_KEY");
    ("EMAIL_USERNAME", email_username self);
    ("EMAIL_PASSWORD", email_password self);
    ("OWNER_EMAIL", owner_email self) ].

Definition _validate_config (env : environ) (self : AIEmailAgent) : result unit :=
  let missing_vars :=
    map fst (filter (fun var_value => negb (truthy_opt (snd var_value)))
               (required_vars env self)) in
  match missing_vars with
  | _ :: _ =>
      Raise (PyExc ValueError
               ("Missing required environment variables: " ++ join ", " missing_vars))
  | [] => Ok tt
  end.

Section Construction.
(** [AzureOpenAI(azure_endpoint=..., api_key=..., api_version=...)]: the
    exception the constructor ends in, if any. *)
Variable client_fault : string -> option string -> string -> option exn.
(** [int(s)] for a [str] [s] *)
Variable py_int : string -> result Z.

Definition __init__ (env : environ) : result AIEmailAgent :=
  let endpoint :=
    getenv_or env "ENDPOINT_URL" "https://netradyneinternalbizteams.openai.azure.com/" in
  let deployment := getenv_or env "DEPLOYMENT_NAME" "gpt-4o" in
  let subscription_key := getenv env "AZURE_OPENAI_API_KEY" in
  let api_version := getenv_or env "AZURE_OPENAI_API_VERSION" "2024-05-01-preview" in
  match client_fault endpoint subscription_key api_version with
  | Some e => Raise e
  | None =>
      match py_int (getenv_or env "SMTP_PORT" "587") with
      | Raise e => Raise e
      | Ok port =>
          let username := getenv env "EMAIL_USERNAME" in
          let self :=
            {| deployment_name := deployment;
               smtp_server := getenv_or env "SMTP_SERVER" "smtp.gmail.com";
               smtp_port := port;
               email_username := username;
               email_password := getenv env "EMAIL_PASSWORD";
               from_email := match getenv env "FROM_EMAIL" with
                             | Some v => Some v
                             | None => username
                             end;
               project_name := getenv_or env "PROJECT_NAME" "Agentic CI/CD Task Manager";
               project_owner := getenv_or env "PROJECT_OWNER" "Project Owner";
               owner_email := getenv env "OWNER_EMAIL" |} in
          match _validate_config env self with
          | Raise e => Raise e
          | Ok _ => Ok self
          end
      end
  end.

End Construction.
End Agent.

(* ================================================================= *)
(** ** github_webhook_handler.py *)

Module Webhook.
Import Py Eff Eff.Notations.

Record GitHubWebhookHandler : Type := {
  (** [os.getenv("GITHUB_WEBHOOK_SECRET")] *)
  webhook_secret : option string
}.

(** The part of a [Request] the handler reads.  Header names compare
    without regard to case. *)
Record Request : Type := {
  body : string;
  headers : list (string * string)
}.

Definition lower_char (c : ascii) : ascii :=
  let n := nat_of_ascii c in
  if ((65 <=? n) && (n <=? 90))%nat then ascii_of_nat (n + 32) else c.

Fixpoint lower (s : string) : string :=
  match s with
  | EmptyString => EmptyString
  | String c rest => String (lower_char c) (lower rest)
  end.

(** [request.headers.get(name, default)] *)
Fixpoint headers_get (hs : list (string * string)) (name default : string) : string :=
  match hs with
  | [] => default
  | (k, v) :: rest =>
      if lower k =? lower name then v else headers_get rest name default
  end.

Definition eq_sign : ascii := ascii_of_nat 61.

Section WithLibrary.
Context {lib : Library}.

Definition verify_signature (self : GitHubWebhookHandler)
    (payload_body : string) (signature_header : option string) : M bool :=
  if negb (truthy_opt (webhook_secret self)) then
    logger WARNING "Webhook secret not configured - skipping signature verification" ;;
    ret true
  else if negb (truthy_opt signature_header) then
    logger ERROR "No signature header provided" ;;
    ret false
  else
    let secret := match webhook_secret self with Some s => s | None => "" end in
    let header := match signature_header with Some h => h | None => "" end in
    try_except
      (parts <- lift (match split_once eq_sign header with
                      | (algorithm, Some signature) => Ok (algorithm, signature)
                      | (_, None) =>
                          Raise (PyExc ValueError
                                   "not enough values to unpack (expected 2, got 1)")
                      end) ;;
       let (algorithm, signature) := (parts : string * string) in
       if negb (algorithm =? "sha256") then
         logger ERROR ("Unsupported signature algorithm: " ++ algorithm) ;;
         ret false
       else
         let expected_signature := hmac_sha256_hexdigest secret payload_body in
         lift (compare_digest signature expected_signature))
      is_Exception
      (fun e =>
         logger ERROR ("Error verifying webhook signature: " ++ exn_str e) ;;
         ret false).

Definition extract_pr_data (self : GitHubWebhookHandler)
    (webhook_payload : pyval) : M pyval :=
  try_except
    (action <- lift (py_get webhook_payload "action" PNone) ;;
     if negb (eq_str action "opened" || eq_str action "reopened") then
       logger INFO ("Ignoring PR action: " ++ py_str action) ;;
       ret PNone
     else
       pr <- lift (py_get webhook_payload "pull_request" (PDict [])) ;;
       repository <- lift (py_get webhook_payload "repository" (PDict [])) ;;
       title <- lift (py_get pr "title" (PStr "Untitled PR")) ;;
       number <- lift (py_get pr "number" PNone) ;;
       user <- lift (py_get pr "user" (PDict [])) ;;
       author <- lift (py_get user "login" (PStr "Unknown")) ;;
       url <- lift (py_get pr "html_url" (PStr "")) ;;
       description <- lift (py_get pr "body" (PStr "No description provided")) ;;
       head <- lift (py_get pr "head" (PDict [])) ;;
       branch_from <- lift (py_get head "ref" (PStr "unknown-branch")) ;;
       base <- lift (py_get pr "base" (PDict [])) ;;
       branch_to <- lift (py_get base "ref" (PStr "main")) ;;
       repository_name <- lift (py_get repository "name" (PStr "Unknown Repository")) ;;
       repository_url <- lift (py_get repository "html_url" (PStr "")) ;;
       created_at <- lift (py_get pr "created_at" PNone) ;;
       updated_at <- lift (py_get pr "updated_at" PNone) ;;
       stamp <- utcnow ;;
       let pr_data :=
         [ ("title", title);
           ("number", number);
           ("author", author);
           ("url", url);
           ("description", description);
           ("branch_from", branch_from);
           ("branch_to", branch_to);
           ("repository_name", repository_name);
           ("repository_url", repository_url);
           ("created_at", created_at);
           ("updated_at", updated_at);
           ("action", action);
           ("files_changed", PList []);
           ("webhook_timestamp", PStr (isoformat stamp));
           ("event_type", PStr "pull_request") ] in
       logger INFO ("Extracted PR data for #" ++ py_str number ++ ": " ++ py_str title) ;;
       ret (PDict pr_data))
    is_Exception
    (fun e =>
       logger ERROR ("Error extracting PR data from webhook: " ++ exn_str e) ;;
       ret PNone).

Definition handle_webhook (self : GitHubWebhookHandler) (request : Request) : M dict :=
  try_except
    (let payload_body := body request in
     let signature_header := headers_get (headers request) "X-Hub-Signature-256" "" in
     let event_type := headers_get (headers request) "X-GitHub-Event" "" in
     logger INFO ("Received GitHub webhook: " ++ event_type) ;;
     valid <- verify_signature self payload_body (Some signature_header) ;;
     (if negb valid then
        logger ERROR "Invalid webhook signature" ;;
        raise (HTTPException 403 "Invalid signature")
      else ret tt) ;;
     webhook_payload <-
       try_except
         (decoded <- lift (decode_utf8 payload_body) ;;
          lift (json_loads decoded))
         is_JSONDecodeError
         (fun e =>
            logger ERROR ("Invalid JSON payload: " ++ exn_str e) ;;
            raise (HTTPException 400 "Invalid JSON payload")) ;;
     if event_type =? "pull_request" then
       pr_data <- extract_pr_data self webhook_payload ;;
       if truthy pr_data then
         add_task pr_data ;;
         number <- lift (py_getitem pr_data "number") ;;
         title <- lift (py_getitem pr_data "title") ;;
         stamp <- utcnow ;;
         ret [ ("status", PStr "success");
               ("message", PStr "PR notification queued for processing");
               ("pr_number", number);
               ("pr_title", title);
               ("timestamp", PStr (isoformat stamp)) ]
       else
         stamp <- utcnow ;;
         ret [ ("status", PStr "ignored");
               ("message", PStr "PR event not relevant for notification");
               ("timestamp", PStr (isoformat stamp)) ]
     else if event_type =? "ping" then
       stamp <- utcnow ;;
       ret [ ("status", PStr "success");
             ("message", PStr "Webhook endpoint is working");
             ("timestamp", PStr (isoformat stamp)) ]
     else
       logger INFO ("Ignoring webhook event type: " ++ event_type) ;;
       stamp <- utcnow ;;
       ret [ ("status", PStr "ignored");
             ("message", PStr ("Event type " ++ event_type ++ " not handled"));
             ("timestamp", PStr (isoformat stamp)) ])
    is_Exception
    (fun e =>
       if is_HTTPException e then raise e
       else
         logger ERROR ("Error handling webhook: " ++ exn_str e) ;;
         raise (HTTPException 500 "Internal server error")).

(** The deferred unit of work [add_task] schedules. *)
Definition process_pr_notification (agent : Agent.AIEmailAgent) (pr_data : dict) : M unit :=
  try_except
    (number <- lift (py_getitem (PDict pr_data) "number") ;;
     logger INFO ("Processing background PR notification for #" ++ py_str number) ;;
     success <- Agent.process_pr_notification agent pr_data ;;
     if (success : bool)
     then logger INFO ("Successfully sent PR notification for #" ++ py_str number)
     else logger ERROR ("Failed to send PR notification for #" ++ py_str number))
    is_Exception
    (fun e =>
       logger ERROR ("Error in background PR notification processing: " ++ exn_str e)).

End WithLibrary.

(** [GitHubWebhookHandler.__init__] *)
Definition __init__ (env : environ) : M GitHubWebhookHandler :=
  let self := {| webhook_secret := getenv env "GITHUB_WEBHOOK_SECRET" |} in
  if negb (truthy_opt (webhook_secret self)) then
    logger WARNING
      "GITHUB_WEBHOOK_SECRET not set - webhook signature verification disabled" ;;
    ret self
  else ret self.

End Webhook.

(* ================================================================= *)
(** ** task_api.py: the webhook endpoint *)

Module Api.
Import Py Eff Eff.Notations.

Section WithLibrary.
Context {lib : Library}.

(** [POST /webhooks/github] *)
Definition github_webhook (handler : Webhook.GitHubWebhookHandler)
    (request : Webhook.Request) : M dict :=
  try_except
    (Webhook.handle_webhook handler request)
    is_Exception
    (fun e =>
       if is_HTTPException e then raise e
       else
         logger ERROR ("Webhook handling error: " ++ exn_str e) ;;
         raise (HTTPException 500 "Internal server error while processing webhook")).

(** The status line the framework sends for an endpoint's outcome: 200
    for a returned value, the code of a raised [HTTPException]. *)
Definition http_status (r : result dict) : Z :=
  match r with
  | Ok _ => 200
  | Raise (HTTPException code _) => code
  | Raise (PyExc _ _) => 500
  end.

(** [POST /ai-email/test] *)
Definition test_ai_email_service (agent : Agent.AIEmailAgent) : M dict :=
  try_except
    (logger INFO "Testing AI email service" ;;
     Agent.test_email_service agent)
    is_Exception
    (fun e =>
       logger ERROR ("Error testing AI email service: " ++ exn_str e) ;;
       raise (HTTPException 500 "Internal server error while testing email service")).

(** [POST /ai-email/send-pr-notification] *)
Definition send_pr_notification (agent : Agent.AIEmailAgent) (pr_data : dict) : M dict :=
  try_except
    (logger INFO ("Manual PR notification requested for: " ++ py_str (PDict pr_data)) ;;
     success <- Agent.process_pr_notification agent pr_data ;;
     if (success : bool) then
       stamp <- utcnow ;;
       ret [ ("status", PStr "success");
             ("message", PStr "PR notification email sent successfully");
             ("timestamp", PStr (isoformat stamp)) ]
     else
       raise (HTTPException 500 "Failed to send PR notification email"))
    is_Exception
    (fun e =>
       if is_HTTPException e then raise e
       else
         logger ERROR ("Error sending manual PR notification: " ++ exn_str e) ;;
         raise (HTTPException 500 "Internal server error while sending notification")).

(** The handlers registered with [app.exception_handler]: what the client
    receives for an outcome of an endpoint, as status and JSON content. *)
Definition exception_handlers (outcome : result dict) : M (Z * dict) :=
  match outcome with
  | Ok content => ret (200%Z, content)
  | Raise (HTTPException code detail) =>
      logger ERROR ("HTTP exception: " ++ detail) ;;
      stamp <- utcnow ;;
      ret (code, [("detail", PStr detail); ("timestamp", PStr (isoformat stamp))])
  | Raise (PyExc cls msg) =>
      logger ERROR ("Unexpected error: " ++ exn_str (PyExc cls msg)) ;;
      stamp <- utcnow ;;
      ret (500%Z, [ ("detail", PStr "Internal server error");
                    ("timestamp", PStr (isoformat stamp)) ])
  end.

End WithLibrary.

Section Status.
Context {lib : Library}.
(** [int(s)] for a [str] [s] *)
Variable py_int : string -> result Z.

(** [bool(os.getenv(name))] *)
Definition is_set (env : environ) (name : string) : bool :=
  truthy_opt (getenv env name).

(** [GET /ai-email/status] *)
Definition get_ai_email_status (env : environ) : M dict :=
  try_except
    (let azure_openai_configured := is_set env "AZURE_OPENAI_API_KEY" in
     let email_configured :=
       is_set env "EMAIL_USERNAME" && is_set env "EMAIL_PASSWORD" in
     let owner_email_configured := is_set env "OWNER_EMAIL" in
     let webhook_secret_configured := is_set env "GITHUB_WEBHOOK_SECRET" in
     smtp_port <- lift (py_int (getenv_or env "SMTP_PORT" "587")) ;;
     let config_status :=
       [ ("azure_openai_configured", PBool azure_openai_configured);
         ("email_configured", PBool email_configured);
         ("owner_email_configured", PBool owner_email_configured);
         ("webhook_secret_configured", PBool webhook_secret_configured);
         ("project_name",
          PStr (getenv_or env "PROJECT_NAME" "Agentic CI/CD Task Manager"));
         ("smtp_server", PStr (getenv_or env "SMTP_SERVER" "smtp.gmail.com"));
         ("smtp_port", PInt smtp_port);
         ("azure_endpoint", PStr (getenv_or env "ENDPOINT_URL" "Not configured"));
         ("deployment_name", PStr (getenv_or env "DEPLOYMENT_NAME" "gpt-4o")) ] in
     stamp <- utcnow ;;
     ret [ ("status",
            PStr (if azure_openai_configured && email_configured
                     && owner_email_configured
                  then "operational" else "configuration_incomplete"));
           ("configuration", PDict config_status);
           ("timestamp", PStr (isoformat stamp)) ])
    is_Exception
    (fun e =>
       logger ERROR ("Error checking AI email status: " ++ exn_str e) ;;
       raise (HTTPException 500 "Internal server error while checking status")).

End Status.
End Api.

(* ================================================================= *)
(** ** Concrete libraries, worlds and inputs for the examples *)

Module Samples.
Import Py Eff.

Definition has_char (c : ascii) (s : string) : bool :=
  existsb (Ascii.eqb c) (list_ascii_of_string s).

Definition hex2 (n : nat) : string :=
  String (Sha256.hex_digit (Z.of_nat (n / 16)))
    (String (Sha256.hex_digit (Z.of_nat (n mod 16))) EmptyString).

Definition repr_char (quote : ascii) (c : ascii) : string :=
  let n := nat_of_ascii c in
  if Ascii.eqb c quote then String "\" (String c EmptyString)
  else if (n =? 92)%nat then "\\"
  else if (n =? 10)%nat then "\n"
  else if (n =? 13)%nat then "\r"
  else if (n =? 9)%nat then "\t"
  else if ((n <? 32) || (n =? 127))%nat then "\x" ++ hex2 n
  else String c EmptyString.

(** [repr] of a [str]: single quotes unless the text has a single quote
    and no double quote; backslash, the quote and control characters
    escaped.  Bytes above 127 are kept, as [repr] does for printable
    characters. *)
Definition repr_str (s : string) : string :=
  let apostrophe := ascii_of_nat 39 in
  let quote := if has_char apostrophe s && negb (has_char (ascii_of_nat 34) s)
               then ascii_of_nat 34 else apostrophe in
  String quote
    (String.concat "" (map (repr_char quote) (list_ascii_of_string s))
     ++ String quote EmptyString).

(** Texts the examples hand to [json.loads]. *)
Definition text_empty_subject_body : string :=
  "{" ++ dq ++ "subject" ++ dq ++ ": " ++ dq ++ dq ++ ", "
      ++ dq ++ "body" ++ dq ++ ": " ++ dq ++ dq ++ "}".

Definition text_good_mail : string :=
  "{" ++ dq ++ "subject" ++ dq ++ ": " ++ dq ++ "PR #42 is ready for review" ++ dq ++ ", "
      ++ dq ++ "body" ++ dq ++ ": " ++ dq ++ "<p>Please review.</p>" ++ dq ++ "}".

Definition text_subject_only : string :=
  "{" ++ dq ++ "subject" ++ dq ++ ": " ++ dq ++ "PR #42 is ready for review" ++ dq ++ "}".

Definition text_opened : string :=
  "{" ++ dq ++ "action" ++ dq ++ ": " ++ dq ++ "opened" ++ dq ++ ", "
      ++ dq ++ "pull_request" ++ dq ++ ": {"
      ++ dq ++ "number" ++ dq ++ ": 42, "
      ++ dq ++ "title" ++ dq ++ ": " ++ dq ++ "Add logging" ++ dq ++ "}}".

Definition text_null_pull_request : string :=
  "{" ++ dq ++ "action" ++ dq ++ ": " ++ dq ++ "opened" ++ dq ++ ", "
      ++ dq ++ "pull_request" ++ dq ++ ": null}".

Definition json_table : list (string * pyval) :=
  [ ("{}", PDict []);
    ("[]", PList []);
    ("null", PNone);
    (text_empty_subject_body, PDict [("subject", PStr ""); ("body", PStr "")]);
    (text_good_mail,
     PDict [("subject", PStr "PR #42 is ready for review");
            ("body", PStr "<p>Please review.</p>")]);
    (text_subject_only, PDict [("subject", PStr "PR #42 is ready for review")]);
    (text_opened,
     PDict [("action", PStr "opened");
            ("pull_request", PDict [("number", PInt 42); ("title", PStr "Add logging")])]);
    (text_null_pull_request,
     PDict [("action", PStr "opened"); ("pull_request", PNone)]) ].

(** [json.loads] on the texts of [json_table]; the other texts the
    examples use ([not json], [Sorry, no JSON today.]) are not JSON. *)
Definition loads_by_table (s : string) : result pyval :=
  match lookup json_table s with
  | Some v => Ok v
  | None => Raise (PyExc JSONDecodeError "Expecting value: line 1 column 1 (char 0)")
  end.

#[local] Instance library : Library := {
  json_loads := loads_by_table;
  str_repr := repr_str
}.

Definition noon : datetime :=
  {| year := 2024; month := 5; day := 7;
     hour := 12; minute := 0; second := 0; microsecond := 0 |}.

Definition later : datetime :=
  {| year := 2024; month := 5; day := 7;
     hour := 12; minute := 0; second := 1; microsecond := 250 |}.

Definition plain_mime (subject : pyval) (sender : option string)
    (recipient html : string) : result string :=
  Ok ("Subject: " ++ py_str subject ++ nl ++ "To: " ++ recipient ++ nl ++ nl ++ html).

(** A world whose clock shows [noon] first, whose backend answers every
    request with [reply], and whose mail transport works. *)
Definition world_with (reply : result (option string)) : world :=
  {| env := {| clock := fun n => match n with O => noon | _ => later end;
               backend := fun _ => reply;
               transport := fun _ => None;
               mime_as_string := plain_mime |};
     ticks := 0; log := []; completions := []; mail := []; background := [] |}.

Definition backend_down : result (option string) :=
  Raise (PyExc (LibraryError "APIConnectionError") "Connection error.").

Definition quiet_world : world := world_with backend_down.

(** A world that differs from [quiet_world] in everything but the next
    reading of the clock. *)
Definition busy_world : world :=
  {| env := {| clock := fun n => match n with 3 => noon | _ => later end;
               backend := fun _ => Ok (Some text_good_mail);
               transport := fun _ => Some (PyExc (LibraryError "SMTPServerDisconnected")
                                               "Connection unexpectedly closed");
               mime_as_string := plain_mime |};
     ticks := 3;
     log := [{| lvl := INFO; text := "Received GitHub webhook: ping" |}];
     completions := []; mail := [SMTP_quit]; background := [PNone] |}.

Definition agent : Agent.AIEmailAgent :=
  {| Agent.deployment_name := "gpt-4o";
     Agent.smtp_server := "smtp.gmail.com";
     Agent.smtp_port := 587;
     Agent.email_username := Some "bot@example.com";
     Agent.email_password := Some "app-password";
     Agent.from_email := Some "bot@example.com";
     Agent.project_name := "Agentic CI/CD Task Manager";
     Agent.project_owner := "Project Owner";
     Agent.owner_email := Some "owner@example.com" |}.

(** The same agent with no owner address. *)
Definition agent_without_owner : Agent.AIEmailAgent :=
  {| Agent.deployment_name := "gpt-4o";
     Agent.smtp_server := "smtp.gmail.com";
     Agent.smtp_port := 587;
     Agent.email_username := Some "bot@example.com";
     Agent.email_password := Some "app-password";
     Agent.from_email := Some "bot@example.com";
     Agent.project_name := "Agentic CI/CD Task Manager";
     Agent.project_owner := "Project Owner";
     Agent.owner_email := None |}.

(** PR #42 "Add logging", from [feature/log] into [main], by [alice]. *)
Definition pr42 : dict :=
  [ ("title", PStr "Add logging");
    ("number", PInt 42);
    ("author", PStr "alice");
    ("url", PStr "https://github.com/example/repo/pull/42");
    ("description", PStr "Adds structured logging.");
    ("branch_from", PStr "feature/log");
    ("branch_to", PStr "main");
    ("files_changed", PList []) ].

Definition open_handler : Webhook.GitHubWebhookHandler :=
  {| Webhook.webhook_secret := None |}.

Definition keyed_handler : Webhook.GitHubWebhookHandler :=
  {| Webhook.webhook_secret := Some "s3cr3t" |}.

Definition ping_with (payload : string) (signature : list (string * string)) : Webhook.Request :=
  {| Webhook.body := payload;
     Webhook.headers := ("x-github-event", "ping") :: signature |}.

(** [sha256=] and the HMAC-SHA256 of [{}] under the key [s3cr3t]. *)
Definition signature_of_empty_object : string :=
  "sha256=608b0c406f3dda19702d71a048483b8c331283106d80a208e3cf43dbde505286".

End Samples.

(* ================================================================= *)
(** ** Vocabulary of the statements *)

Module Vocabulary.
Import Py Eff.

(** The algorithm component of a signature header: the part before the
    first [=], the whole header when it has none. *)
Definition algorithm_component (header : string) : string :=
  fst (split_once Webhook.eq_sign header).

(** [c] does not occur in [s]. *)
Fixpoint free_of (c : ascii) (s : string) : bool :=
  match s with
  | EmptyString => true
  | String c' rest => negb (Ascii.eqb c' c) && free_of c rest
  end.

(** The [action] field of a payload, when the payload is an object that
    has one. *)
Definition payload_action (payload : pyval) : option pyval :=
  match payload with
  | PDict d => lookup d "action"
  | _ => None
  end.

(** The field a path of keys leads to, when every key on the way is
    present in an object. *)
Fixpoint field (v : pyval) (path : list string) : option pyval :=
  match path with
  | [] => Some v
  | k :: rest =>
      match v with
      | PDict d =>
          match lookup d k with
          | Some x => field x rest
          | None => None
          end
      | _ => None
      end
  end.

Definition field_or (v : pyval) (path : list string) (default : pyval) : pyval :=
  match field v path with
  | Some x => x
  | None => default
  end.

Definition object_or_absent (x : option pyval) : bool :=
  match x with
  | None | Some (PDict _) => true
  | Some _ => false
  end.

(** A well-formed pull-request payload: an object in which [pull_request],
    [repository] and, inside [pull_request], [user], [head] and [base]
    are objects when they are present. *)
Definition well_formed (payload : pyval) : bool :=
  match payload with
  | PDict _ =>
      object_or_absent (field payload ["pull_request"])
      && object_or_absent (field payload ["repository"])
      && object_or_absent (field payload ["pull_request"; "user"])
      && object_or_absent (field payload ["pull_request"; "head"])
      && object_or_absent (field payload ["pull_request"; "base"])
  | _ => false
  end.

(** Fallback content: a dict of exactly [subject] and [body], both
    non-empty strings. *)
Definition usable_fallback (v : pyval) : Prop :=
  exists subject body,
    v = PDict [("subject", PStr subject); ("body", PStr body)]
    /\ subject <> "" /\ body <> "".

(** The fallback content for a record in a world: what
    [_generate_fallback_email] returns there. *)
Definition fallback_content {lib : Library} (self : Agent.AIEmailAgent)
    (pr_data : dict) (w : world) (v : pyval) : Prop :=
  exists d,
    fst (Agent._generate_fallback_email self pr_data w) = Ok d /\ v = PDict d.

(** The request the content generator submits for a PR record, when the
    record's fields render into a prompt. *)
Definition request_of {lib : Library} (self : Agent.AIEmailAgent) (pr_data : dict)
    : result completion_request :=
  match Agent.files_changed_text (dict_get pr_data "files_changed" (PList [])) with
  | Ok files_text =>
      Ok (Agent.completion_for self
            (Agent.prompt_text self
               (dict_get pr_data "title" (PStr "New Pull Request"))
               (dict_get pr_data "number" (PStr "Unknown"))
               (dict_get pr_data "author" (PStr "Unknown Author"))
               (dict_get pr_data "branch_from" (PStr "feature-branch"))
               (dict_get pr_data "branch_to" (PStr "main"))
               (dict_get pr_data "description" (PStr "No description provided"))
               (dict_get pr_data "url" (PStr "#"))
               files_text))
  | Raise e => Raise e
  end.

(** The subject line of the fallback content. *)
Definition fallback_subject {lib : Library} (pr_data : dict) : string :=
  "🔔 New PR #" ++ py_str (dict_get pr_data "number" (PStr "Unknown"))
  ++ ": " ++ py_str (dict_get pr_data "title" (PStr "New Pull Request")).

(** What the world records besides the log and the clock. *)
Definition same_activity (w w' : world) : Prop :=
  completions w' = completions w
  /\ mail w' = mail w
  /\ background w' = background w.

(** A payload the extractor acts on: an object whose [action] is
    [opened] or [reopened]. *)
Definition relevant (payload : pyval) : bool :=
  match payload_action payload with
  | Some action => eq_str action "opened" || eq_str action "reopened"
  | None => false
  end.

(** The record of a relevant, well-formed payload received at [stamp]:
    each field read along its path, with its default. *)
Definition expected_record (payload : pyval) (stamp : datetime) : dict :=
  [ ("title", field_or payload ["pull_request"; "title"] (PStr "Untitled PR"));
    ("number", field_or payload ["pull_request"; "number"] PNone);
    ("author", field_or payload ["pull_request"; "user"; "login"] (PStr "Unknown"));
    ("url", field_or payload ["pull_request"; "html_url"] (PStr ""));
    ("description",
     field_or payload ["pull_request"; "body"] (PStr "No description provided"));
    ("branch_from",
     field_or payload ["pull_request"; "head"; "ref"] (PStr "unknown-branch"));
    ("branch_to", field_or payload ["pull_request"; "base"; "ref"] (PStr "main"));
    ("repository_name",
     field_or payload ["repository"; "name"] (PStr "Unknown Repository"));
    ("repository_url", field_or payload ["repository"; "html_url"] (PStr ""));
    ("created_at", field_or payload ["pull_request"; "created_at"] PNone);
    ("updated_at", field_or payload ["pull_request"; "updated_at"] PNone);
    ("action", field_or payload ["action"] PNone);
    ("files_changed", PList []);
    ("webhook_timestamp", PStr (isoformat stamp));
    ("event_type", PStr "pull_request") ].

Definition is_object (v : pyval) : bool :=
  match v with PDict _ => true | _ => false end.

(** [c] keeps the relation [R] between the world it starts in and the
    world it leaves. *)
Definition preserves {A} (R : world -> world -> Prop) (c : M A) : Prop :=
  forall w, R w (snd (c w)).

(** Nothing but the log changed, which grew by [records]. *)
Definition only_logged (records : list log_record) (w w' : world) : Prop :=
  env w' = env w /\ ticks w' = ticks w /\ same_activity w w'
  /\ log w' = (log w ++ records)%list.

(** The services were left alone: no request to the text backend, no
    operation on the mail transport. *)
Definition services_untouched (w w' : world) : Prop :=
  env w' = env w /\ completions w' = completions w /\ mail w' = mail w.

(** Neither the mail transport nor the deferred work was touched. *)
Definition mail_and_tasks_untouched (w w' : world) : Prop :=
  env w' = env w /\ mail w' = mail w /\ background w' = background w.

(** The five operations of one complete mail session. *)
Definition mail_session (self : Agent.AIEmailAgent) (recipient text : string)
    : list smtp_op :=
  [ SMTP_connect (Agent.smtp_server self) (Agent.smtp_port self);
    SMTP_starttls;
    SMTP_login (Agent.email_username self) (Agent.email_password self);
    SMTP_sendmail (Agent.from_email self) recipient text;
    SMTP_quit ].

(** The four responses of the webhook handler that are not a returned
    acknowledgment. *)
Definition webhook_rejections : list exn :=
  [ HTTPException 403 "Invalid signature";
    HTTPException 400 "Invalid JSON payload";
    HTTPException 500 "Internal server error" ].

(** The environment variables whose values are secrets or addresses; the
    status endpoint reports only whether they are set. *)
Definition guarded_names : list string :=
  [ "AZURE_OPENAI_API_KEY"; "EMAIL_USERNAME"; "EMAIL_PASSWORD";
    "OWNER_EMAIL"; "GITHUB_WEBHOOK_SECRET" ].

(** The environment variables the status endpoint reports by value. *)
Definition reported_names : list string :=
  [ "PROJECT_NAME"; "SMTP_SERVER"; "SMTP_PORT"; "ENDPOINT_URL"; "DEPLOYMENT_NAME" ].

End Vocabulary.

(* ================================================================= *)
(** ** More libraries, environments and inputs for the examples *)

Module MoreSamples.
Import Py Eff.

(** The JSON text of the string [subject and body]. *)
Definition text_json_string : string := dq ++ "subject and body" ++ dq.

(** [json.loads] on the texts of [Samples.json_table] and on
    [text_json_string]. *)
Definition loads_with_strings (s : string) : result pyval :=
  if s =? text_json_string then Ok (PStr "subject and body")
  else Samples.loads_by_table s.

Definition library : Library := {|
  json_loads := loads_with_strings;
  str_repr := Samples.repr_str
|}.

Fixpoint digits_value (acc : Z) (s : string) : option Z :=
  match s with
  | EmptyString => Some acc
  | String c rest =>
      let n := nat_of_ascii c in
      if ((48 <=? n) && (n <=? 57))%nat
      then digits_value (10 * acc + Z.of_nat (n - 48)) rest
      else None
  end.

(** [int(s)] on the texts the examples use: a non-empty run of the digits
    [0] to [9], and text with a letter in it, which [int] refuses. *)
Definition int_of_digits (s : string) : result Z :=
  match s with
  | EmptyString =>
      Raise (PyExc ValueError "invalid literal for int() with base 10: ''")
  | _ =>
      match digits_value 0 s with
      | Some z => Ok z
      | None =>
          Raise (PyExc ValueError
                   ("invalid literal for int() with base 10: " ++ Samples.repr_str s))
      end
  end.

(** The client constructor refuses to start without a key. *)
Definition needs_a_key (endpoint : string) (api_key : option string)
    (api_version : string) : option exn :=
  match api_key with
  | Some _ => None
  | None =>
      Some (PyExc (LibraryError "OpenAIError")
              "Missing credentials. Please pass one of `api_key`, `azure_ad_token`, `azure_ad_token_provider`, or the `AZURE_OPENAI_API_KEY` or `AZURE_OPENAI_AD_TOKEN` environment variables.")
  end.

Definition complete_env : environ :=
  [ ("AZURE_OPENAI_API_KEY", "key-one");
    ("EMAIL_USERNAME", "bot@example.com");
    ("EMAIL_PASSWORD", "app-password");
    ("OWNER_EMAIL", "owner@example.com");
    ("GITHUB_WEBHOOK_SECRET", "s3cr3t");
    ("SMTP_PORT", "2525") ].

(** The same configuration with other secrets and addresses. *)
Definition other_secrets_env : environ :=
  [ ("AZURE_OPENAI_API_KEY", "key-two");
    ("EMAIL_USERNAME", "robot@example.org");
    ("EMAIL_PASSWORD", "another-password");
    ("OWNER_EMAIL", "lead@example.org");
    ("GITHUB_WEBHOOK_SECRET", "hunter2");
    ("SMTP_PORT", "2525") ].

Definition env_without_owner : environ :=
  [ ("AZURE_OPENAI_API_KEY", "key-one");
    ("EMAIL_USERNAME", "bot@example.com");
    ("EMAIL_PASSWORD", "app-password") ].

(** The agent [__init__] builds from [complete_env]. *)
Definition configured_agent : Agent.AIEmailAgent :=
  {| Agent.deployment_name := "gpt-4o";
     Agent.smtp_server := "smtp.gmail.com";
     Agent.smtp_port := 2525;
     Agent.email_username := Some "bot@example.com";
     Agent.email_password := Some "app-password";
     Agent.from_email := Some "bot@example.com";
     Agent.project_name := "Agentic CI/CD Task Manager";
     Agent.project_owner := "Project Owner";
     Agent.owner_email := Some "owner@example.com" |}.

(** The payload [Samples.text_opened] parses to. *)
Definition opened_payload : pyval :=
  PDict [("action", PStr "opened");
         ("pull_request", PDict [("number", PInt 42); ("title", PStr "Add logging")])].

Definition event_with (event payload : string) : Webhook.Request :=
  {| Webhook.body := payload;
     Webhook.headers := [("x-github-event", event)] |}.

End MoreSamples.

(* ================================================================= *)
(** * Properties *)

(** ** The signature verifier *)

Section Verifier.
Import Py Eff Webhook Vocabulary.
Context {lib : Library}.

Lemma split_once_append (c : ascii) (a b : string) :
  free_of c a = true ->
  split_once c (a ++ String c b) = (a, Some b).
Proof.
  induction a as [|x a IH]; simpl.
  - intros _. now rewrite Ascii.eqb_refl.
  - intros H. apply andb_true_iff in H as [Hx Ha].
    apply negb_true_iff in Hx. rewrite Hx, (IH Ha). reflexivity.
Qed.

Lemma split_once_whole (c : ascii) (s : string) :
  free_of c s = true -> split_once c s = (s, None).
Proof.
  induction s as [|x s IH]; simpl; [reflexivity|].
  intros H. apply andb_true_iff in H as [Hx Hs].
  apply negb_true_iff in Hx. rewrite Hx, (IH Hs). reflexivity.
Qed.

Lemma algorithm_component_append (alg digest : string) :
  free_of eq_sign alg = true ->
  algorithm_component (alg ++ String eq_sign digest) = alg.
Proof.
  intros H. unfold algorithm_component. now rewrite split_once_append.
Qed.

Lemma verify_without_secret self payload signature w :
  truthy_opt (webhook_secret self) = false ->
  verify_signature self payload signature w
  = (Ok true,
     snd (logger WARNING
            "Webhook secret not configured - skipping signature verification" w)).
Proof.
  intros H. unfold verify_signature. rewrite H. reflexivity.
Qed.

Lemma verify_without_header self payload signature w :
  truthy_opt (webhook_secret self) = true ->
  truthy_opt signature = false ->
  verify_signature self payload signature w
  = (Ok false, snd (logger ERROR "No signature header provided" w)).
Proof.
  intros Hs Hh. unfold verify_signature. rewrite Hs, Hh. reflexivity.
Qed.

Lemma verify_other_algorithm self payload header w :
  truthy_opt (webhook_secret self) = true ->
  algorithm_component header <> "sha256" ->
  fst (verify_signature self payload (Some header) w) = Ok false.
Proof.
  intros Hs Halg. unfold verify_signature. rewrite Hs. simpl negb.
  destruct (truthy_opt (Some header)); [|reflexivity]. simpl negb.
  unfold algorithm_component in Halg.
  unfold try_except, bind, lift.
  destruct (split_once eq_sign header) as [alg [sig|]]; simpl in Halg |- *.
  - apply String.eqb_neq in Halg. rewrite Halg. reflexivity.
  - reflexivity.
Qed.

(** The verifier always returns, and what it returns does not depend on
    the world it runs in. *)
Lemma verify_returns self payload signature w :
  exists b, fst (verify_signature self payload signature w) = Ok b.
Proof.
  unfold verify_signature.
  destruct (truthy_opt (webhook_secret self)); simpl negb; [|eexists; reflexivity].
  destruct (truthy_opt signature); simpl negb; [|eexists; reflexivity].
  unfold try_except, bind, lift.
  destruct (split_once eq_sign _) as [alg [sig|]]; simpl.
  - destruct (alg =? "sha256"); simpl; [|eexists; reflexivity].
    destruct (compare_digest _ _); simpl; eexists; reflexivity.
  - eexists; reflexivity.
Qed.

Lemma verify_same_in_every_world self payload signature w1 w2 :
  fst (verify_signature self payload signature w1)
  = fst (verify_signature self payload signature w2).
Proof.
  unfold verify_signature.
  destruct (truthy_opt (webhook_secret self)); simpl negb; [|reflexivity].
  destruct (truthy_opt signature); simpl negb; [|reflexivity].
  unfold try_except, bind, lift.
  destruct (split_once eq_sign _) as [alg [sig|]]; simpl.
  - destruct (alg =? "sha256"); simpl; [|reflexivity].
    destruct (compare_digest _ _); reflexivity.
  - reflexivity.
Qed.

(** C5.  With no shared secret configured the verifier returns true for
    every body and every signature header; with a secret configured it
    returns false for every body when the header is absent or empty. *)
Theorem verify_secret_and_header self payload signature w :
  (truthy_opt (webhook_secret self) = false ->
   fst (verify_signature self payload signature w) = Ok true)
  /\
  (truthy_opt (webhook_secret self) = true ->
   signature = None \/ signature = Some "" ->
   fst (verify_signature self payload signature w) = Ok false).
Proof.
  split.
  - intros H. now rewrite verify_without_secret.
  - intros Hs Hh. rewrite verify_without_header; trivial.
    destruct Hh as [-> | ->]; reflexivity.
Qed.

(** C6.  With a secret configured, a header whose algorithm component is
    not exactly [sha256] is rejected, whatever the body and the digest. *)
Theorem verify_rejects_other_algorithms self payload header w :
  truthy_opt (webhook_secret self) = true ->
  algorithm_component header <> "sha256" ->
  fst (verify_signature self payload (Some header) w) = Ok false.
Proof.
  apply verify_other_algorithm.
Qed.

(** The same for a header written [<algorithm>=<digest>]. *)
Lemma verify_rejects_algorithm_digest self payload alg digest w :
  truthy_opt (webhook_secret self) = true ->
  free_of eq_sign alg = true ->
  alg <> "sha256" ->
  fst (verify_signature self payload (Some (alg ++ String eq_sign digest)) w) = Ok false.
Proof.
  intros Hs Hfree Halg. apply verify_other_algorithm; trivial.
  now rewrite algorithm_component_append.
Qed.

End Verifier.

(** ** The event extractor *)

Section Extractor.
Import Py Eff Webhook Vocabulary.
Context {lib : Library}.

(** The extractor absorbs every exception: it always returns. *)
Lemma extract_returns self payload w :
  exists v, fst (extract_pr_data self payload w) = Ok v.
Proof.
  unfold extract_pr_data, try_except.
  match goal with |- context [match ?c w with _ => _ end] => destruct (c w) as [[v|e] w'] end.
  - eexists; reflexivity.
  - simpl. eexists; reflexivity.
Qed.

Lemma eq_str_false v s :
  v <> PStr s -> eq_str v s = false.
Proof.
  destruct v; simpl; trivial.
  intros H. apply String.eqb_neq. congruence.
Qed.

(** C7.  A payload whose [action] is neither [opened] nor [reopened],
    or that has no [action], yields no record: the extractor returns
    [None]; it does not raise. *)
Theorem extract_ignores_other_actions self payload w :
  payload_action payload <> Some (PStr "opened") ->
  payload_action payload <> Some (PStr "reopened") ->
  fst (extract_pr_data self payload w) = Ok PNone.
Proof.
  intros Ho Hr. unfold extract_pr_data, try_except, bind, lift.
  destruct payload; try reflexivity.
  simpl in Ho, Hr. unfold py_get, dict_get.
  destruct (lookup d "action") as [a|]; [|reflexivity].
  rewrite (eq_str_false a "opened") by congruence.
  rewrite (eq_str_false a "reopened") by congruence.
  reflexivity.
Qed.

(** Outside well-formed payloads the extractor still returns, with no
    record: here [pull_request] is [null]. *)
Lemma extract_null_pull_request self d w :
  lookup d "action" = Some (PStr "opened") ->
  lookup d "pull_request" = Some PNone ->
  fst (extract_pr_data self (PDict d) w) = Ok PNone.
Proof.
  intros Ha Hp.
  unfold extract_pr_data, try_except, bind, lift, py_get, dict_get.
  rewrite Ha, Hp. simpl eq_str. simpl negb. cbv iota.
  destruct (lookup d "repository"); reflexivity.
Qed.

(** Every run of the extractor leaves exactly one record in the log, and
    touches neither the backend, nor the mail transport, nor the deferred
    work. *)
Lemma extract_logs_once self payload w :
  exists r,
    log (snd (extract_pr_data self payload w)) = (log w ++ [r])%list
    /\ same_activity w (snd (extract_pr_data self payload w)).
Proof.
  unfold extract_pr_data, try_except, bind, lift, ret, logger, utcnow.
  destruct (py_get payload "action" PNone) as [action|e]; simpl.
  2:{ eexists; split; [reflexivity|]; repeat split. }
  destruct (negb _); simpl.
  { eexists; split; [reflexivity|]; repeat split. }
  repeat (match goal with
          | |- context [match py_get ?v ?k ?d with _ => _ end] =>
              destruct (py_get v k d); simpl;
              [| eexists; split; [reflexivity|]; repeat split]
          end).
  eexists; split; [reflexivity|]; repeat split.
Qed.

End Extractor.

(** ** The content generator *)

Section Generator.
Import Py Eff Agent Vocabulary.
Context {lib : Library}.

Lemma fallback_run self pr_data w :
  _generate_fallback_email self pr_data w
  = (Ok [("subject", PStr (fallback_subject pr_data));
         ("body",
          PStr (fallback_body self pr_data
                  (dict_get pr_data "title" (PStr "New Pull Request"))
                  (dict_get pr_data "number" (PStr "Unknown"))
                  (dict_get pr_data "author" (PStr "Unknown Author"))
                  (dict_get pr_data "url" (PStr "#"))
                  (now w)))],
     snd (utcnow w)).
Proof. reflexivity. Qed.

Lemma append_nonempty (a b : string) : a <> "" -> a ++ b <> "".
Proof. destruct a; [congruence | discriminate]. Qed.

Lemma fallback_is_usable self pr_data w :
  exists d, fst (_generate_fallback_email self pr_data w) = Ok d
            /\ usable_fallback (PDict d).
Proof.
  rewrite fallback_run. eexists; split; [reflexivity|].
  eexists _, _; split; [reflexivity|]. split.
  - unfold fallback_subject. apply append_nonempty. discriminate.
  - unfold fallback_body. apply append_nonempty. discriminate.
Qed.

(** C1 (as amended).  The fallback subject is a bell emoji, a space and
    [New PR #<number>: <title>], number and title rendered by [str] and
    replaced by [Unknown] and [New Pull Request] when the record lacks
    them. *)
Theorem fallback_subject_format self pr_data w :
  exists body,
    fst (_generate_fallback_email self pr_data w)
    = Ok [("subject",
           PStr ("🔔 New PR #"
                 ++ py_str (dict_get pr_data "number" (PStr "Unknown"))
                 ++ ": "
                 ++ py_str (dict_get pr_data "title" (PStr "New Pull Request"))));
          ("body", PStr body)].
Proof.
  rewrite fallback_run. eexists. reflexivity.
Qed.

(** For a record with an integer number and a text title. *)
Lemma fallback_subject_number_title self pr_data w (n : Z) (title : string) :
  lookup pr_data "number" = Some (PInt n) ->
  lookup pr_data "title" = Some (PStr title) ->
  exists body,
    fst (_generate_fallback_email self pr_data w)
    = Ok [("subject", PStr ("🔔 New PR #" ++ str_of_Z n ++ ": " ++ title));
          ("body", PStr body)].
Proof.
  intros Hn Ht. rewrite fallback_run. unfold fallback_subject, dict_get.
  rewrite Hn, Ht. eexists. reflexivity.
Qed.

(** C4.  The fallback renderer does nothing but read the clock once, and
    its output is a function of the record and of that reading: in two
    worlds whose clocks read the same, whatever else differs, the same
    record gives the same subject and body. *)
Theorem fallback_deterministic self pr_data w1 w2 :
  now w1 = now w2 ->
  fst (_generate_fallback_email self pr_data w1)
  = fst (_generate_fallback_email self pr_data w2)
  /\ snd (_generate_fallback_email self pr_data w1) = snd (utcnow w1)
  /\ snd (_generate_fallback_email self pr_data w2) = snd (utcnow w2)
  /\ same_activity w1 (snd (_generate_fallback_email self pr_data w1))
  /\ same_activity w2 (snd (_generate_fallback_email self pr_data w2)).
Proof.
  intros Hnow. rewrite !fallback_run. simpl fst. simpl snd. rewrite Hnow.
  repeat split.
Qed.

Lemma usable_fallback_content self pr_data stamp :
  usable_fallback
    (PDict [("subject", PStr (fallback_subject pr_data));
            ("body",
             PStr (fallback_body self pr_data
                     (dict_get pr_data "title" (PStr "New Pull Request"))
                     (dict_get pr_data "number" (PStr "Unknown"))
                     (dict_get pr_data "author" (PStr "Unknown Author"))
                     (dict_get pr_data "url" (PStr "#"))
                     stamp))]).
Proof.
  eexists _, _; split; [reflexivity|]. split.
  - unfold fallback_subject. apply append_nonempty. discriminate.
  - unfold fallback_body. apply append_nonempty. discriminate.
Qed.

Ltac run_generator :=
  cbv [generate_pr_email_content try_except bind lift ret raise
       chat_completion logger utcnow loads_content is_Exception
       _generate_fallback_email];
  fold (fallback_subject (lib := lib)).

Ltac fallback_case :=
  eexists _, _; split; [reflexivity|]; split;
  [left; split;
   [eexists; split; reflexivity | apply usable_fallback_content] | ].

Lemma generate_cases self pr_data w :
  exists v w',
    generate_pr_email_content self pr_data w = (Ok v, w')
    /\ (fallback_content self pr_data w v /\ usable_fallback v
        \/ exists rq text,
             request_of self pr_data = Ok rq
             /\ backend (env w) rq = Ok (Some text)
             /\ json_loads text = Ok v
             /\ lacks "subject" v = Ok false
             /\ lacks "body" v = Ok false)
    /\ (forall rq text v0,
          request_of self pr_data = Ok rq ->
          backend (env w) rq = Ok (Some text) ->
          json_loads text = Ok v0 ->
          lacks "subject" v0 = Ok false ->
          lacks "body" v0 = Ok false ->
          v = v0).
Proof.
  unfold request_of. run_generator.
  destruct (files_changed_text _) as [ft|e0].
  2:{ fallback_case. intros; discriminate. }
  cbv beta iota. set (rq := completion_for self _).
  destruct (backend (env w) rq) as [[text|]|e] eqn:Hreply.
  3:{ fallback_case. intros ? ? ? [= <-]. congruence. }
  2:{ fallback_case. intros ? ? ? [= <-]. congruence. }
  destruct (json_loads text) as [val|e] eqn:Hloads.
  2:{ destruct (is_ValueError e); fallback_case;
      intros ? ? ? [= <-]; rewrite Hreply; intros [= <-]; congruence. }
  assert (Hsame : forall rq0 text0 v0,
             Ok rq = Ok rq0 ->
             backend (env w) rq0 = Ok (Some text0) ->
             json_loads text0 = Ok v0 -> v0 = val).
  { intros ? ? ? [= <-]. rewrite Hreply. intros [= <-]. congruence. }
  destruct (lacks "subject" val) as [[|]|e] eqn:Hs.
  - fallback_case. intros ? ? ? H1 H2 H3.
    rewrite (Hsame _ _ _ H1 H2 H3). congruence.
  - destruct (lacks "body" val) as [[|]|e] eqn:Hb.
    + fallback_case. intros ? ? ? H1 H2 H3.
      rewrite (Hsame _ _ _ H1 H2 H3). congruence.
    + eexists _, _; split; [reflexivity|]. split.
      * right. exists rq, text. auto.
      * intros ? ? ? H1 H2 H3 _ _. symmetry. exact (Hsame _ _ _ H1 H2 H3).
    + destruct (is_ValueError e); fallback_case; intros ? ? ? H1 H2 H3;
        rewrite (Hsame _ _ _ H1 H2 H3); congruence.
  - destruct (is_ValueError e); fallback_case; intros ? ? ? H1 H2 H3;
      rewrite (Hsame _ _ _ H1 H2 H3); congruence.
Qed.


End Generator.

(** ** The delivery agent *)

Section Delivery.
Import Py Eff Agent Vocabulary.
Context {lib : Library}.

(** C9.  With no recipient argument and no owner address, [send_email]
    logs the fault and returns false; the mail transport is not touched. *)
Theorem send_without_recipient self subject body to_email w :
  truthy_opt to_email = false ->
  truthy_opt (owner_email self) = false ->
  send_email self subject body to_email w
  = (Ok false, snd (logger ERROR "No recipient email specified" w))
  /\ mail (snd (send_email self subject body to_email w)) = mail w.
Proof.
  intros Hto Howner.
  assert (H : send_email self subject body to_email w
              = (Ok false, snd (logger ERROR "No recipient email specified" w))).
  { unfold send_email, or_else, try_except, bind. rewrite Hto, Howner.
    reflexivity. }
  split; [exact H|]. rewrite H. reflexivity.
Qed.

End Delivery.

(** ** The webhook handler *)

Section Handler.
Import Py Eff Webhook Api Vocabulary.
Context {lib : Library}.

(** A verification that succeeds logs at most the warning that no
    secret is configured, and changes nothing else. *)
Lemma verify_true_world self payload signature w :
  fst (verify_signature self payload signature w) = Ok true ->
  snd (verify_signature self payload signature w)
  = if truthy_opt (webhook_secret self) then w
    else snd (logger WARNING
                "Webhook secret not configured - skipping signature verification" w).
Proof.
  unfold verify_signature.
  destruct (truthy_opt (webhook_secret self)); simpl negb; [|reflexivity].
  destruct (truthy_opt signature); simpl negb; [|discriminate].
  unfold try_except, bind, lift.
  destruct (split_once eq_sign _) as [alg [sig|]]; simpl.
  - destruct (alg =? "sha256"); simpl; [|discriminate].
    destruct (compare_digest _ _); simpl; [reflexivity|discriminate].
  - discriminate.
Qed.

Lemma handle_rejects_bad_signature self request w :
  fst (verify_signature self (body request)
         (Some (headers_get (headers request) "X-Hub-Signature-256" "")) w)
  = Ok false ->
  fst (handle_webhook self request w)
  = Raise (HTTPException 403 "Invalid signature").
Proof.
  intros Hv. unfold handle_webhook, try_except.
  unfold bind at 1. unfold logger at 1. cbv beta iota.
  unfold bind at 1.
  match goal with
  | |- context [verify_signature ?s ?p ?h ?w1] =>
      rewrite (verify_same_in_every_world s p h w w1) in Hv;
      destruct (verify_signature s p h w1) as [r w2]
  end.
  simpl in Hv. subst r. reflexivity.
Qed.

(** C10.  A request whose signature does not verify is answered 403
    whatever its body, malformed JSON included; an answer of 400 is
    given only to a request whose signature verified. *)
Theorem signature_checked_before_parsing self request w :
  (fst (verify_signature self (body request)
          (Some (headers_get (headers request) "X-Hub-Signature-256" "")) w)
   = Ok false ->
   fst (handle_webhook self request w)
   = Raise (HTTPException 403 "Invalid signature")
   /\ http_status (fst (github_webhook self request w)) = 403%Z)
  /\
  (forall detail,
     fst (handle_webhook self request w) = Raise (HTTPException 400 detail) ->
     fst (verify_signature self (body request)
            (Some (headers_get (headers request) "X-Hub-Signature-256" "")) w)
     = Ok true).
Proof.
  split.
  - intros Hv. pose proof (handle_rejects_bad_signature self request w Hv) as H.
    split; [exact H|].
    unfold github_webhook, try_except.
    destruct (handle_webhook self request w) as [r w']. simpl in H. subst r.
    reflexivity.
  - intros detail H.
    destruct (verify_returns self (body request)
                (Some (headers_get (headers request) "X-Hub-Signature-256" "")) w)
      as [[|] Hb]; [exact Hb|].
    rewrite (handle_rejects_bad_signature self request w Hb) in H.
    discriminate.
Qed.

(** C2 (as amended).  A [ping] whose signature verifies and whose body
    is UTF-8 text that parses as JSON is acknowledged; the handler logs
    the arrival (and, without a secret, the verifier's warning), reads
    the clock once, and does nothing else: the log has no record of the
    extractor, which leaves one on every run ([extract_logs_once]), and
    there is no deferred work, no backend call and no mail. *)
Theorem ping_acknowledged self request w text payload :
  headers_get (headers request) "X-GitHub-Event" "" = "ping" ->
  fst (verify_signature self (body request)
         (Some (headers_get (headers request) "X-Hub-Signature-256" "")) w)
  = Ok true ->
  decode_utf8 (body request) = Ok text ->
  json_loads text = Ok payload ->
  exists w',
    handle_webhook self request w
    = (Ok [ ("status", PStr "success");
            ("message", PStr "Webhook endpoint is working");
            ("timestamp", PStr (isoformat (now w))) ], w')
    /\ same_activity w w'
    /\ ticks w' = S (ticks w)
    /\ log w'
        = (log w
           ++ [{| lvl := INFO; text := "Received GitHub webhook: ping" |}]
           ++ (if truthy_opt (webhook_secret self) then []
               else [{| lvl := WARNING;
                        text := "Webhook secret not configured - skipping signature verification" |}]))%list.
Proof.
  intros Hev Hv Hdec Hjson.
  unfold handle_webhook, try_except.
  unfold bind at 1. unfold logger at 1. cbv beta iota.
  unfold bind at 1. rewrite Hev.
  match goal with
  | |- context [verify_signature ?s ?p ?h ?w1] =>
      rewrite (verify_same_in_every_world s p h w w1) in Hv;
      pose proof (verify_true_world s p h w1 Hv) as Hw;
      destruct (verify_signature s p h w1) as [r w2]
  end.
  simpl in Hv, Hw. subst r w2.
  unfold bind, lift, ret, raise. rewrite Hdec, Hjson. simpl.
  destruct (truthy_opt (webhook_secret self)); simpl;
    (eexists; split; [reflexivity|]);
    unfold same_activity; simpl; rewrite <- ?app_assoc; auto.
Qed.

(** What becomes of a verified request whose body is not JSON: 400 for
    text [json.loads] refuses, 500 for bytes that are not UTF-8.  The
    event type plays no part. *)
Lemma verified_malformed_json self request w text e :
  fst (verify_signature self (body request)
         (Some (headers_get (headers request) "X-Hub-Signature-256" "")) w)
  = Ok true ->
  decode_utf8 (body request) = Ok text ->
  json_loads text = Raise e ->
  is_JSONDecodeError e = true ->
  fst (handle_webhook self request w)
  = Raise (HTTPException 400 "Invalid JSON payload").
Proof.
  intros Hv Hdec Hjson He.
  unfold handle_webhook, try_except.
  unfold bind at 1. unfold logger at 1. cbv beta iota.
  unfold bind at 1.
  match goal with
  | |- context [verify_signature ?s ?p ?h ?w1] =>
      rewrite (verify_same_in_every_world s p h w w1) in Hv;
      destruct (verify_signature s p h w1) as [r w2]
  end.
  simpl in Hv. subst r.
  unfold bind, lift, ret, raise. rewrite Hdec, Hjson. simpl. rewrite He.
  reflexivity.
Qed.

Lemma verified_not_utf8 self request w :
  fst (verify_signature self (body request)
         (Some (headers_get (headers request) "X-Hub-Signature-256" "")) w)
  = Ok true ->
  utf8_valid (body request) = false ->
  fst (handle_webhook self request w)
  = Raise (HTTPException 500 "Internal server error").
Proof.
  intros Hv Hdec.
  unfold handle_webhook, try_except.
  unfold bind at 1. unfold logger at 1. cbv beta iota.
  unfold bind at 1.
  match goal with
  | |- context [verify_signature ?s ?p ?h ?w1] =>
      rewrite (verify_same_in_every_world s p h w w1) in Hv;
      destruct (verify_signature s p h w1) as [r w2]
  end.
  simpl in Hv. subst r.
  unfold bind, lift, ret, raise, decode_utf8. rewrite Hdec. reflexivity.
Qed.

End Handler.

(** ** More on the signature verifier *)

Section VerifierMore.
Import Py Eff Webhook Vocabulary.
Context {lib : Library}.

Lemma split_once_inverse (c : ascii) (s a : string) (rest : option string) :
  split_once c s = (a, rest) ->
  s = match rest with
      | Some b => a ++ String c b
      | None => a
      end.
Proof.
  revert a rest. induction s as [|x s IH]; simpl; intros a rest H.
  - injection H as <- <-. reflexivity.
  - destruct (Ascii.eqb x c) eqn:Hx.
    + apply Ascii.eqb_eq in Hx. subst x. injection H as <- <-. reflexivity.
    + destruct (split_once c s) as [a' rest'] eqn:Hs.
      injection H as <- <-. rewrite (IH a' rest' eq_refl).
      destruct rest'; reflexivity.
Qed.

Lemma hex_digit_ascii (d : Z) :
  (0 <= d < 16)%Z -> (nat_of_ascii (Sha256.hex_digit d) <? 128)%nat = true.
Proof.
  intros H.
  assert (Hn : exists n, (n < 16)%nat /\ d = Z.of_nat n).
  { exists (Z.to_nat d). split; lia. }
  destruct Hn as (n & Hn & ->).
  do 16 (destruct n as [|n]; [reflexivity|]). lia.
Qed.

Lemma hex_is_ascii (bs : list Z) :
  Forall (fun b => (0 <= b < 256)%Z) bs -> is_ascii (Sha256.hex bs) = true.
Proof.
  induction 1 as [|b bs Hb _ IH]; [reflexivity|].
  cbn [Sha256.hex is_ascii].
  rewrite !hex_digit_ascii, IH; [reflexivity| |].
  - apply Z.mod_pos_bound. lia.
  - split; [apply Z.div_pos; lia | apply Z.div_lt_upper_bound; lia].
Qed.

Lemma digest_bytes (msg : list Z) :
  Forall (fun b => (0 <= b < 256)%Z) (Sha256.digest msg).
Proof.
  unfold Sha256.digest.
  induction (Sha256.blocks _ _ _) as [|x xs IH]; [constructor|].
  cbn [flat_map Sha256.word_bytes app].
  repeat (constructor; [apply Z.mod_pos_bound; lia|]). exact IH.
Qed.

Lemma hexdigest_is_ascii (key msg : string) :
  is_ascii (hmac_sha256_hexdigest key msg) = true.
Proof.
  apply hex_is_ascii. apply digest_bytes.
Qed.

(** X1.  With a secret configured, the verifier accepts a header exactly
    when it is [sha256=] followed by the lower-case hexadecimal
    HMAC-SHA256 of the body under the secret. *)
Theorem verify_accepts_exactly_the_digest self secret payload header w :
  webhook_secret self = Some secret ->
  secret <> "" ->
  fst (verify_signature self payload (Some header) w) = Ok true
  <-> header = "sha256=" ++ hmac_sha256_hexdigest secret payload.
Proof.
  intros Hsecret Hne.
  assert (Hcfg : truthy_opt (webhook_secret self) = true).
  { rewrite Hsecret. simpl. apply negb_true_iff, String.eqb_neq, Hne. }
  split.
  - unfold verify_signature. rewrite Hcfg, Hsecret. simpl negb. cbv iota.
    destruct (truthy_opt (Some header)); simpl negb; cbv iota; [|discriminate].
    unfold try_except, bind, lift.
    destruct (split_once eq_sign header) as [alg [sig|]] eqn:Hsplit; simpl;
      [|discriminate].
    destruct (alg =? "sha256") eqn:Halg; simpl; [|discriminate].
    apply String.eqb_eq in Halg. subst alg.
    unfold compare_digest.
    destruct (is_ascii sig && is_ascii _); simpl; [|discriminate].
    intros [= Heq]. apply String.eqb_eq in Heq.
    rewrite (split_once_inverse _ _ _ _ Hsplit), Heq. reflexivity.
  - intros ->.
    set (digest := hmac_sha256_hexdigest secret payload).
    assert (Hhead : truthy_opt (Some ("sha256=" ++ digest)) = true) by reflexivity.
    assert (Hsplit : split_once eq_sign ("sha256=" ++ digest)
                     = ("sha256", Some digest)) by reflexivity.
    unfold verify_signature. rewrite Hcfg, Hsecret, Hhead. simpl negb. cbv iota.
    unfold try_except, bind, lift. rewrite Hsplit. simpl.
    unfold compare_digest. fold digest.
    unfold digest at 1 2. rewrite hexdigest_is_ascii. fold digest.
    rewrite String.eqb_refl. reflexivity.
Qed.

(** X2.  The verifier always returns and changes nothing but the log, to
    which it adds at most one record, and none when it accepts a
    signature under a configured secret. *)
Theorem verify_only_logs self payload signature w :
  exists b records,
    fst (verify_signature self payload signature w) = Ok b
    /\ only_logged records w (snd (verify_signature self payload signature w))
    /\ (length records <= 1)%nat
    /\ (b = true -> truthy_opt (webhook_secret self) = true -> records = []).
Proof.
  unfold verify_signature, only_logged, same_activity.
  destruct (truthy_opt (webhook_secret self)); simpl negb; cbv iota.
  2:{ exists true, [{| lvl := WARNING;
                      text := "Webhook secret not configured - skipping signature verification" |}].
      repeat split; try reflexivity; try discriminate; try (simpl; lia). }
  destruct (truthy_opt signature); simpl negb; cbv iota.
  2:{ exists false, [{| lvl := ERROR; text := "No signature header provided" |}].
      repeat split; try reflexivity; try discriminate; try (simpl; lia). }
  unfold try_except, bind, lift.
  destruct (split_once eq_sign _) as [alg [sig|]]; simpl.
  - destruct (alg =? "sha256"); simpl.
    + destruct (compare_digest _ _) as [b|e]; simpl.
      * exists b, []. rewrite app_nil_r. repeat split; try (simpl; lia).
      * eexists false, [_]. repeat split; try reflexivity; try discriminate; try (simpl; lia).
    + eexists false, [_]. repeat split; try reflexivity; try discriminate; try (simpl; lia).
  - eexists false, [_]. repeat split; try reflexivity; try discriminate; try (simpl; lia).
Qed.

End VerifierMore.

(** ** More on the event extractor *)

Section ExtractorMore.
Import Py Eff Webhook Vocabulary.
Context {lib : Library}.

Lemma field_or_some d k x path default :
  lookup d k = Some x ->
  field_or (PDict d) (k :: path) default = field_or x path default.
Proof. intros H. unfold field_or. simpl. rewrite H. reflexivity. Qed.

Lemma field_or_none d k path default :
  lookup d k = None ->
  field_or (PDict d) (k :: path) default = default.
Proof. intros H. unfold field_or. simpl. rewrite H. reflexivity. Qed.

Lemma field_or_leaf p k default :
  field_or (PDict p) [k] default = dict_get p k default.
Proof. unfold field_or, dict_get. simpl. destruct (lookup p k); reflexivity. Qed.

Lemma field_or_empty_object k path default :
  field_or (PDict []) (k :: path) default = default.
Proof. reflexivity. Qed.

Lemma object_or_absent_lookup d k path :
  object_or_absent (field (PDict d) (k :: path))
  = match lookup d k with
    | Some x => object_or_absent (field x path)
    | None => true
    end.
Proof. simpl. destruct (lookup d k); reflexivity. Qed.

Ltac read_fields :=
  repeat match goal with
         | H : lookup ?d ?k = Some ?x
           |- context [field_or (PDict ?d) (?k :: ?path) ?def] =>
             rewrite (field_or_some d k x path def H)
         | H : lookup ?d ?k = None
           |- context [field_or (PDict ?d) (?k :: ?path) ?def] =>
             rewrite (field_or_none d k path def H)
         end;
  rewrite ?field_or_leaf, ?field_or_empty_object.

Ltac read_shape :=
  repeat match goal with
         | H : lookup ?d ?k = _
           |- context [object_or_absent (field (PDict ?d) (?k :: ?path))] =>
             rewrite (object_or_absent_lookup d k path), H
         end;
  cbn [field object_or_absent andb].

Lemma extract_run self payload w :
  extract_pr_data self payload w
  = if relevant payload && well_formed payload
    then (Ok (PDict (expected_record payload (now w))),
          snd (logger INFO
                 ("Extracted PR data for #"
                  ++ py_str (field_or payload ["pull_request"; "number"] PNone)
                  ++ ": "
                  ++ py_str (field_or payload ["pull_request"; "title"]
                               (PStr "Untitled PR")))
                 (snd (utcnow w))))
    else (Ok PNone, snd (extract_pr_data self payload w)).
Proof.
  destruct payload as [| | | | | |d]; try reflexivity.
  unfold relevant, payload_action, well_formed, expected_record.
  unfold extract_pr_data, try_except, bind, lift, py_get, dict_get.
  destruct (lookup d "action") as [a|] eqn:Ha; [|reflexivity].
  destruct (eq_str a "opened" || eq_str a "reopened"); [|reflexivity].
  simpl negb. cbv iota. simpl andb.
  destruct (lookup d "pull_request") as [[| | | | | |p]|] eqn:Hpr;
    read_shape; try reflexivity.
  - destruct (lookup p "user") as [[| | | | | |u]|] eqn:Hu;
      read_shape; rewrite ?andb_false_r; try reflexivity;
      destruct (lookup p "head") as [[| | | | | |h]|] eqn:Hh;
      read_shape; rewrite ?andb_false_r; try reflexivity;
      destruct (lookup p "base") as [[| | | | | |b]|] eqn:Hb;
      read_shape; rewrite ?andb_false_r; try reflexivity;
      destruct (lookup d "repository") as [[| | | | | |r]|] eqn:Hr;
      read_shape; rewrite ?andb_false_r; try reflexivity;
      read_fields; reflexivity.
  - destruct (lookup d "repository") as [[| | | | | |r]|] eqn:Hr;
      read_shape; rewrite ?andb_false_r; try reflexivity;
      read_fields; reflexivity.
Qed.

Lemma extract_result self payload w :
  fst (extract_pr_data self payload w)
  = if relevant payload && well_formed payload
    then Ok (PDict (expected_record payload (now w)))
    else Ok PNone.
Proof.
  rewrite extract_run. destruct (relevant payload && well_formed payload); reflexivity.
Qed.

(** When the extractor gives no record it has read no clock: it has only
    added one record to the log. *)
Lemma extract_no_record_world self payload w :
  fst (extract_pr_data self payload w) = Ok PNone ->
  exists r, only_logged [r] w (snd (extract_pr_data self payload w)).
Proof.
  unfold extract_pr_data, try_except, bind, lift, ret, logger, utcnow,
    only_logged, same_activity.
  destruct (py_get payload "action" PNone) as [action|e]; simpl.
  2:{ intros _. eexists; repeat split. }
  destruct (negb _); simpl.
  { intros _. eexists; repeat split. }
  repeat (match goal with
          | |- context [match py_get ?v ?k ?d with _ => _ end] =>
              destruct (py_get v k d); simpl;
              [| intros _; eexists; repeat split]
          end).
  discriminate.
Qed.

(** C8 (as amended).  For a payload with action [opened]: when
    [pull_request], [repository], [user], [head] and [base] are objects
    where present, the extractor returns a record whose title, author,
    source branch and target branch are the payload's fields when present
    and the defaults [Untitled PR], [Unknown], [unknown-branch] and [main]
    when absent; when one of the five is present and not an object
    ([null], say), the extractor returns no record. *)
Theorem extract_opened_fields self payload w :
  payload_action payload = Some (PStr "opened") ->
  (well_formed payload = true ->
   exists record,
     fst (extract_pr_data self payload w) = Ok (PDict record)
     /\ lookup record "title"
         = Some (field_or payload ["pull_request"; "title"] (PStr "Untitled PR"))
     /\ lookup record "author"
         = Some (field_or payload ["pull_request"; "user"; "login"] (PStr "Unknown"))
     /\ lookup record "branch_from"
         = Some (field_or payload ["pull_request"; "head"; "ref"]
                   (PStr "unknown-branch"))
     /\ lookup record "branch_to"
         = Some (field_or payload ["pull_request"; "base"; "ref"] (PStr "main")))
  /\ (well_formed payload = false ->
      fst (extract_pr_data self payload w) = Ok PNone).
Proof.
  intros Haction.
  assert (Hrelevant : relevant payload = true)
    by (unfold relevant; rewrite Haction; reflexivity).
  pose proof (extract_result self payload w) as Hresult.
  rewrite Hrelevant in Hresult. cbn [andb] in Hresult.
  split; intros Hwf; rewrite Hwf in Hresult.
  - eexists. split; [exact Hresult|]. repeat split; reflexivity.
  - exact Hresult.
Qed.

(** X3.  The extractor returns a record exactly for the payloads that are
    relevant (an object whose action is [opened] or [reopened]) and
    well-formed (the nested objects are objects when present). *)
Theorem extract_returns_record_iff self payload w :
  (exists record, fst (extract_pr_data self payload w) = Ok (PDict record))
  <-> relevant payload && well_formed payload = true.
Proof.
  rewrite extract_result.
  destruct (relevant payload && well_formed payload); split.
  - reflexivity.
  - intros _. eexists; reflexivity.
  - intros [record H]. discriminate.
  - discriminate.
Qed.

(** X4.  For a relevant, well-formed payload the record has every one of
    its fifteen fields read along its path in the payload, with the
    field's default when the path ends early, and is stamped with the
    clock's reading. *)
Theorem extract_builds_expected_record self payload w :
  relevant payload = true ->
  well_formed payload = true ->
  fst (extract_pr_data self payload w)
  = Ok (PDict (expected_record payload (now w))).
Proof.
  intros Hr Hw. rewrite extract_result, Hr, Hw. reflexivity.
Qed.

Lemma eq_str_true v s : eq_str v s = true -> v = PStr s.
Proof.
  destruct v; simpl; try discriminate.
  intros H. apply String.eqb_eq in H. congruence.
Qed.

(** X5.  Whatever the payload, a record the extractor returns has the
    fifteen keys in their fixed order, an empty list of changed files, the
    event type [pull_request], the clock's reading as its timestamp and
    [opened] or [reopened] as its action. *)
Theorem extract_record_shape self payload w record :
  fst (extract_pr_data self payload w) = Ok (PDict record) ->
  map fst record
  = [ "title"; "number"; "author"; "url"; "description"; "branch_from";
      "branch_to"; "repository_name"; "repository_url"; "created_at";
      "updated_at"; "action"; "files_changed"; "webhook_timestamp";
      "event_type" ]
  /\ lookup record "files_changed" = Some (PList [])
  /\ lookup record "event_type" = Some (PStr "pull_request")
  /\ lookup record "webhook_timestamp" = Some (PStr (isoformat (now w)))
  /\ (lookup record "action" = Some (PStr "opened")
      \/ lookup record "action" = Some (PStr "reopened")).
Proof.
  rewrite extract_result.
  destruct (relevant payload) eqn:Hrel; simpl; [|discriminate].
  destruct (well_formed payload); [|discriminate].
  intros [= <-]. repeat split.
  unfold relevant, payload_action in Hrel.
  destruct payload as [| | | | | |d]; try discriminate.
  destruct (lookup d "action") as [a|] eqn:Ha; [|discriminate].
  cbn [expected_record lookup String.eqb Ascii.eqb Bool.eqb].
  rewrite (field_or_some d "action" a [] PNone Ha).
  apply orb_true_iff in Hrel as [H|H]; apply eq_str_true in H; subst a;
    [left|right]; reflexivity.
Qed.

End ExtractorMore.

(** ** What a computation leaves alone *)

Section Frames.
Import Py Eff Vocabulary.

Variable R : world -> world -> Prop.
Hypothesis R_refl : forall w, R w w.
Hypothesis R_trans : forall w1 w2 w3, R w1 w2 -> R w2 w3 -> R w1 w3.

Lemma preserves_ret {A} (a : A) : preserves R (ret a).
Proof. intro w. apply R_refl. Qed.

Lemma preserves_raise {A} (e : exn) : preserves R (@raise A e).
Proof. intro w. apply R_refl. Qed.

Lemma preserves_lift {A} (r : result A) : preserves R (lift r).
Proof. intro w. apply R_refl. Qed.

Lemma preserves_bind {A B} (c : M A) (k : A -> M B) :
  preserves R c -> (forall a, preserves R (k a)) -> preserves R (bind c k).
Proof.
  intros Hc Hk w. unfold bind. specialize (Hc w).
  destruct (c w) as [[a|e] w1]; simpl in *; [|exact Hc].
  eapply R_trans; [exact Hc | apply Hk].
Qed.

Lemma preserves_try_except {A} (c : M A) (classes : exn -> bool) (h : exn -> M A) :
  preserves R c -> (forall e, preserves R (h e)) ->
  preserves R (try_except c classes h).
Proof.
  intros Hc Hh w. unfold try_except. specialize (Hc w).
  destruct (c w) as [[a|e] w1]; simpl in *; [exact Hc|].
  destruct (classes e); [|exact Hc].
  eapply R_trans; [exact Hc | apply Hh].
Qed.

End Frames.

Section FrameInstances.
Import Py Eff Vocabulary.

Lemma services_untouched_refl w : services_untouched w w.
Proof. repeat split. Qed.

Lemma services_untouched_trans w1 w2 w3 :
  services_untouched w1 w2 -> services_untouched w2 w3 -> services_untouched w1 w3.
Proof.
  unfold services_untouched. intros (A1 & B1 & C1) (A2 & B2 & C2).
  repeat split; congruence.
Qed.

Lemma mail_and_tasks_untouched_refl w : mail_and_tasks_untouched w w.
Proof. repeat split. Qed.

Lemma mail_and_tasks_untouched_trans w1 w2 w3 :
  mail_and_tasks_untouched w1 w2 -> mail_and_tasks_untouched w2 w3 ->
  mail_and_tasks_untouched w1 w3.
Proof.
  unfold mail_and_tasks_untouched. intros (A1 & B1 & C1) (A2 & B2 & C2).
  repeat split; congruence.
Qed.

End FrameInstances.

(** Goals [preserves R c], for [c] built from the operations of [M]. *)
Ltac frame R_refl R_trans :=
  repeat
    match goal with
    | |- Vocabulary.preserves _ (Eff.bind _ _) =>
        apply (preserves_bind _ R_trans); [|intro]
    | |- Vocabulary.preserves _ (Eff.try_except _ _ _) =>
        apply (preserves_try_except _ R_trans); [|intro]
    | |- Vocabulary.preserves _ (Eff.ret _) => apply (preserves_ret _ R_refl)
    | |- Vocabulary.preserves _ (Eff.raise _) => apply (preserves_raise _ R_refl)
    | |- Vocabulary.preserves _ (Eff.lift _) => apply (preserves_lift _ R_refl)
    | |- Vocabulary.preserves _ (if ?b then _ else _) => destruct b
    | |- Vocabulary.preserves _ (match ?x with _ => _ end) => destruct x
    | |- Vocabulary.preserves _ (Eff.logger _ _) => intro; repeat split
    | |- Vocabulary.preserves _ Eff.utcnow => intro; repeat split
    | |- Vocabulary.preserves _ (Eff.add_task _) => intro; repeat split
    | |- Vocabulary.preserves _ (Eff.chat_completion _) => intro; repeat split
    | |- Vocabulary.preserves _ (Eff.smtp _) => intro; repeat split
    | |- Vocabulary.preserves _ (Eff.as_string _ _ _ _) => intro; repeat split
    end.

Section HandlerFrames.
Import Py Eff Webhook Vocabulary.
Context {lib : Library}.

Lemma verify_leaves_services self payload signature :
  preserves services_untouched (verify_signature self payload signature).
Proof.
  unfold verify_signature. cbv zeta.
  frame services_untouched_refl services_untouched_trans.
Qed.

Lemma extract_leaves_services self payload :
  preserves services_untouched (extract_pr_data self payload).
Proof.
  unfold extract_pr_data.
  frame services_untouched_refl services_untouched_trans.
Qed.

(** X6.  For every request, the webhook handler sends nothing to the text
    backend and performs no operation on the mail transport. *)
Theorem handle_webhook_leaves_services self request :
  preserves services_untouched (handle_webhook self request).
Proof.
  unfold handle_webhook. cbv zeta.
  repeat
    (frame services_untouched_refl services_untouched_trans;
     try apply verify_leaves_services; try apply extract_leaves_services).
Qed.

End HandlerFrames.

(** ** More on the webhook handler *)

Section HandlerMore.
Import Py Eff Webhook Api Vocabulary.
Context {lib : Library}.

(** A verification that succeeds in one world succeeds in every world,
    where it only logs. *)
Lemma verified_world self payload signature w w0 :
  fst (verify_signature self payload signature w) = Ok true ->
  exists records w1,
    verify_signature self payload signature w0 = (Ok true, w1)
    /\ only_logged records w0 w1.
Proof.
  intros Hv.
  rewrite (verify_same_in_every_world self payload signature w w0) in Hv.
  pose proof (verify_true_world self payload signature w0 Hv) as Hw.
  destruct (verify_signature self payload signature w0) as [r w2].
  simpl in Hv, Hw. subst r w2.
  destruct (truthy_opt (webhook_secret self)).
  - exists [], w0. split; [reflexivity|].
    unfold only_logged, same_activity. rewrite app_nil_r. repeat split.
  - eexists [_], _. split; [reflexivity|].
    unfold only_logged, same_activity. simpl. repeat split.
Qed.

Lemma only_logged_now records w w1 : only_logged records w w1 -> now w1 = now w.
Proof. intros (He & Ht & _). unfold now. rewrite He, Ht. reflexivity. Qed.

Lemma only_logged_background records w w1 :
  only_logged records w w1 -> background w1 = background w.
Proof. intros (_ & _ & (_ & _ & H) & _). exact H. Qed.

Lemma only_logged_ticks records w w1 :
  only_logged records w w1 -> ticks w1 = ticks w.
Proof. intros (_ & H & _). exact H. Qed.

Lemma only_logged_env records w w1 :
  only_logged records w w1 -> env w1 = env w.
Proof. intros (H & _). exact H. Qed.

Ltac enter_handler w Hv Hdec Hjson :=
  let records := fresh "records" in
  let w1 := fresh "w1" in
  let Hrun := fresh "Hrun" in
  let Hw1 := fresh "Hw1" in
  unfold handle_webhook, try_except;
  unfold bind at 1; unfold logger at 1; cbv beta iota;
  unfold bind at 1;
  match goal with
  | |- context [verify_signature ?s ?p ?h ?w0] =>
      destruct (verified_world s p h w w0 Hv) as (records & w1 & Hrun & Hw1);
      rewrite Hrun
  end;
  cbv beta iota; simpl negb; unfold bind, lift, ret, raise; cbv beta iota;
  rewrite Hdec; cbv beta iota; rewrite Hjson; cbv beta iota.

(** X7.  A verified [pull_request] event whose JSON payload is not relevant
    or not well-formed is acknowledged as [ignored], and no deferred work
    is scheduled. *)
Theorem irrelevant_pull_request_is_ignored self request w text payload :
  headers_get (headers request) "X-GitHub-Event" "" = "pull_request" ->
  fst (verify_signature self (body request)
         (Some (headers_get (headers request) "X-Hub-Signature-256" "")) w)
  = Ok true ->
  decode_utf8 (body request) = Ok text ->
  json_loads text = Ok payload ->
  relevant payload && well_formed payload = false ->
  exists w',
    handle_webhook self request w
    = (Ok [ ("status", PStr "ignored");
            ("message", PStr "PR event not relevant for notification");
            ("timestamp", PStr (isoformat (now w))) ], w')
    /\ background w' = background w.
Proof.
  intros Hev Hv Hdec Hjson Hno.
  enter_handler w Hv Hdec Hjson. rewrite Hev. simpl (_ =? _). cbv beta iota.
  assert (Hnone : fst (extract_pr_data self payload w1) = Ok PNone)
    by (rewrite extract_result, Hno; reflexivity).
  destruct (extract_no_record_world self payload w1 Hnone) as (r & Hw2).
  destruct (extract_pr_data self payload w1) as [v w2]. simpl in Hnone, Hw2.
  subst v. unfold utcnow. change (truthy PNone) with false. cbv beta iota.
  rewrite (only_logged_now _ _ _ Hw2), (only_logged_now _ _ _ Hw1).
  eexists. split; [reflexivity|]. simpl.
  rewrite (only_logged_background _ _ _ Hw2), (only_logged_background _ _ _ Hw1).
  reflexivity.
Qed.

(** X8.  A verified [pull_request] event with a relevant, well-formed
    payload is acknowledged as [success] with the payload's number and
    title, and exactly one unit of deferred work is scheduled: the
    extracted record. *)
Theorem relevant_pull_request_is_queued self request w text payload :
  headers_get (headers request) "X-GitHub-Event" "" = "pull_request" ->
  fst (verify_signature self (body request)
         (Some (headers_get (headers request) "X-Hub-Signature-256" "")) w)
  = Ok true ->
  decode_utf8 (body request) = Ok text ->
  json_loads text = Ok payload ->
  relevant payload && well_formed payload = true ->
  exists w',
    handle_webhook self request w
    = (Ok [ ("status", PStr "success");
            ("message", PStr "PR notification queued for processing");
            ("pr_number", field_or payload ["pull_request"; "number"] PNone);
            ("pr_title",
             field_or payload ["pull_request"; "title"] (PStr "Untitled PR"));
            ("timestamp", PStr (isoformat (clock (env w) (S (ticks w))))) ], w')
    /\ background w'
       = (background w ++ [PDict (expected_record payload (now w))])%list.
Proof.
  intros Hev Hv Hdec Hjson Hyes.
  enter_handler w Hv Hdec Hjson. rewrite Hev. simpl (_ =? _). cbv beta iota.
  rewrite extract_run, Hyes. cbv beta iota.
  unfold utcnow, logger, add_task. cbn [snd fst].
  change (truthy (PDict (expected_record payload (now w1)))) with true.
  cbv beta iota.
  change (py_getitem (PDict (expected_record payload (now w1))) "number")
    with (Ok (field_or payload ["pull_request"; "number"] PNone)).
  change (py_getitem (PDict (expected_record payload (now w1))) "title")
    with (Ok (field_or payload ["pull_request"; "title"] (PStr "Untitled PR"))).
  cbv beta iota. cbn [env ticks background].
  rewrite (only_logged_env _ _ _ Hw1), (only_logged_ticks _ _ _ Hw1),
    (only_logged_background _ _ _ Hw1), (only_logged_now _ _ _ Hw1).
  eexists. split; reflexivity.
Qed.

(** X9.  A verified event that is neither [pull_request] nor [ping], with a
    JSON body, is acknowledged as [ignored] with the event type in the
    message, and no deferred work is scheduled. *)
Theorem other_events_are_ignored self request w text payload :
  headers_get (headers request) "X-GitHub-Event" "" <> "pull_request" ->
  headers_get (headers request) "X-GitHub-Event" "" <> "ping" ->
  fst (verify_signature self (body request)
         (Some (headers_get (headers request) "X-Hub-Signature-256" "")) w)
  = Ok true ->
  decode_utf8 (body request) = Ok text ->
  json_loads text = Ok payload ->
  exists w',
    handle_webhook self request w
    = (Ok [ ("status", PStr "ignored");
            ("message",
             PStr ("Event type "
                   ++ headers_get (headers request) "X-GitHub-Event" ""
                   ++ " not handled"));
            ("timestamp", PStr (isoformat (now w))) ], w')
    /\ background w' = background w.
Proof.
  intros Hpr Hping Hv Hdec Hjson.
  apply String.eqb_neq in Hpr, Hping.
  enter_handler w Hv Hdec Hjson. rewrite Hpr, Hping. cbv beta iota.
  unfold utcnow, logger. cbv beta iota. cbn [env ticks background now].
  rewrite (only_logged_env _ _ _ Hw1), (only_logged_ticks _ _ _ Hw1),
    (only_logged_background _ _ _ Hw1).
  eexists. split; reflexivity.
Qed.

Lemma verified_loads_failure self request w text e :
  fst (verify_signature self (body request)
         (Some (headers_get (headers request) "X-Hub-Signature-256" "")) w)
  = Ok true ->
  decode_utf8 (body request) = Ok text ->
  json_loads text = Raise e ->
  is_JSONDecodeError e = false ->
  is_HTTPException e = false ->
  fst (handle_webhook self request w)
  = Raise (HTTPException 500 "Internal server error").
Proof.
  intros Hv Hdec Hjson Hjd Hhttp.
  enter_handler w Hv Hdec Hjson. rewrite Hjd. cbn [is_Exception].
  rewrite Hhttp. reflexivity.
Qed.

Lemma handle_webhook_outcomes self request w :
  (forall s code detail, json_loads s <> Raise (HTTPException code detail)) ->
  (exists d,
     fst (handle_webhook self request w) = Ok d
     /\ (lookup d "status" = Some (PStr "success")
         \/ lookup d "status" = Some (PStr "ignored")))
  \/ (exists e,
        In e webhook_rejections
        /\ fst (handle_webhook self request w) = Raise e).
Proof.
  intros Hlib.
  destruct (verify_returns self (body request)
              (Some (headers_get (headers request) "X-Hub-Signature-256" "")) w)
    as [[|] Hv].
  2:{ right. eexists. split; [|apply handle_rejects_bad_signature; exact Hv].
      simpl; auto. }
  destruct (utf8_valid (body request)) eqn:Hutf.
  2:{ right. eexists. split; [|apply verified_not_utf8; assumption].
      simpl; auto. }
  assert (Hdec : decode_utf8 (body request) = Ok (body request))
    by (unfold decode_utf8; rewrite Hutf; reflexivity).
  destruct (json_loads (body request)) as [payload|e] eqn:Hjson.
  2:{ right. destruct (is_JSONDecodeError e) eqn:Hjd.
      - eexists. split; [|eapply verified_malformed_json; eassumption].
        simpl; auto.
      - eexists. split; [|eapply verified_loads_failure; try eassumption].
        + simpl; auto.
        + destruct e as [cls msg|code detail]; [reflexivity|].
          exfalso. exact (Hlib _ _ _ Hjson). }
  left.
  enter_handler w Hv Hdec Hjson.
  destruct (_ =? "pull_request").
  - rewrite extract_run.
    destruct (relevant payload && well_formed payload).
    + eexists. split; [reflexivity|]. left; reflexivity.
    + destruct (extract_pr_data self payload w1) as [v w2].
      eexists. split; [reflexivity|]. right; reflexivity.
  - destruct (_ =? "ping").
    + eexists. split; [reflexivity|]. left; reflexivity.
    + eexists. split; [reflexivity|]. right; reflexivity.
Qed.

(** X10.  The webhook endpoint ends in one of five ways: an acknowledgment
    whose status is [success] or [ignored], or an HTTP error 403, 400 or
    500 with a fixed detail that carries no text of the failure.  (The
    JSON parser is taken not to raise HTTP errors of its own.) *)
Theorem github_webhook_outcomes self request w :
  (forall s code detail, json_loads s <> Raise (HTTPException code detail)) ->
  (exists d,
     fst (github_webhook self request w) = Ok d
     /\ (lookup d "status" = Some (PStr "success")
         \/ lookup d "status" = Some (PStr "ignored")))
  \/ (exists e,
        In e webhook_rejections
        /\ fst (github_webhook self request w) = Raise e).
Proof.
  intros Hlib. unfold github_webhook, try_except.
  destruct (handle_webhook_outcomes self request w Hlib)
    as [(d & Hd & Hs)|(e & He & Hr)];
    destruct (handle_webhook self request w) as [r w']; simpl in *; subst r.
  - left. exists d. split; [reflexivity|exact Hs].
  - right. exists e. split; [exact He|].
    destruct He as [<-|[<-|[<-|[]]]]; reflexivity.
Qed.

End HandlerMore.

(** ** More on the content generator *)

Section GeneratorMore.
Import Py Eff Agent Vocabulary.
Context {lib : Library}.

Lemma generate_leaves_mail_and_tasks self pr_data :
  preserves mail_and_tasks_untouched (generate_pr_email_content self pr_data).
Proof.
  unfold generate_pr_email_content, _generate_fallback_email. cbv zeta.
  frame mail_and_tasks_untouched_refl mail_and_tasks_untouched_trans.
Qed.

(** X11.  The content generator submits exactly one request to the backend
    when the record renders into a prompt and none otherwise (no retry),
    and touches neither the mail transport nor the deferred work. *)
Theorem generate_asks_the_backend_once self pr_data w :
  mail_and_tasks_untouched w (snd (generate_pr_email_content self pr_data w))
  /\ completions (snd (generate_pr_email_content self pr_data w))
     = match request_of self pr_data with
       | Ok rq => (completions w ++ [rq])%list
       | Raise _ => completions w
       end.
Proof.
  split; [apply generate_leaves_mail_and_tasks|].
  unfold request_of.
  cbv [generate_pr_email_content try_except bind lift ret raise
       chat_completion logger utcnow loads_content is_Exception
       _generate_fallback_email].
  destruct (files_changed_text _) as [ft|e0]; [|reflexivity].
  cbv beta iota.
  destruct (backend (env w) _) as [[text|]|e]; try reflexivity.
  destruct (json_loads text) as [val|e].
  2:{ destruct (is_ValueError e); reflexivity. }
  destruct (lacks "subject" val) as [[|]|e]; try reflexivity.
  - destruct (lacks "body" val) as [[|]|e]; try reflexivity.
    destruct (is_ValueError e); reflexivity.
  - destruct (is_ValueError e); reflexivity.
Qed.

Lemma substring_of_unfold needle hay :
  substring_of needle hay
  = if String.prefix needle hay then true
    else match hay with
         | EmptyString => false
         | String _ rest => substring_of needle rest
         end.
Proof. destruct hay; reflexivity. Qed.

Lemma prefix_append (a b : string) : String.prefix a (a ++ b) = true.
Proof.
  induction a as [|c a IH]; simpl; [destruct b; reflexivity|].
  destruct (ascii_dec c c); [exact IH|congruence].
Qed.

Lemma substring_here (x rest : string) : substring_of x (x ++ rest) = true.
Proof. rewrite substring_of_unfold, prefix_append. reflexivity. Qed.

Lemma substring_skip (x s t : string) :
  substring_of x t = true -> substring_of x (s ++ t) = true.
Proof.
  intros H. induction s as [|c s IH]; cbn [append]; [exact H|].
  rewrite substring_of_unfold, IH. destruct (String.prefix _ _); reflexivity.
Qed.

Lemma append_associative (a b c : string) : (a ++ b) ++ c = a ++ b ++ c.
Proof. induction a as [|x a IH]; simpl; congruence. Qed.

Lemma substring_here2 (a b rest : string) :
  substring_of (a ++ b) (a ++ b ++ rest) = true.
Proof. rewrite <- append_associative. apply substring_here. Qed.

Lemma substring_here3 (a b c rest : string) :
  substring_of (a ++ b ++ c) (a ++ b ++ c ++ rest) = true.
Proof.
  replace (a ++ b ++ c ++ rest) with ((a ++ b ++ c) ++ rest)
    by (rewrite !append_associative; reflexivity).
  apply substring_here.
Qed.

Ltac find_piece :=
  repeat first [ apply substring_here3 | apply substring_here2
               | apply substring_here | apply substring_skip ].

(** X12.  The fallback body contains, as they are, the title, number,
    author, source and target branch and description of the record, its
    URL as a quoted attribute value, and the generation time. *)
Theorem fallback_body_embeds_the_fields self pr_data w :
  exists subject body,
    fst (_generate_fallback_email self pr_data w)
    = Ok [("subject", PStr subject); ("body", PStr body)]
    /\ substring_of (py_str (dict_get pr_data "title" (PStr "New Pull Request"))) body
       = true
    /\ substring_of (py_str (dict_get pr_data "number" (PStr "Unknown"))) body = true
    /\ substring_of (py_str (dict_get pr_data "author" (PStr "Unknown Author"))) body
       = true
    /\ substring_of (py_str (dict_get pr_data "branch_from" (PStr "feature-branch")))
         body = true
    /\ substring_of (py_str (dict_get pr_data "branch_to" (PStr "main"))) body = true
    /\ substring_of
         (py_str (dict_get pr_data "description" (PStr "No description provided")))
         body = true
    /\ substring_of (dq ++ py_str (dict_get pr_data "url" (PStr "#")) ++ dq) body
       = true
    /\ substring_of (strftime_ymd_hms (now w) ++ " UTC") body = true.
Proof.
  rewrite fallback_run. eexists _, _. split; [reflexivity|].
  unfold fallback_body.
  repeat split; find_piece.
Qed.

End GeneratorMore.

(** ** More on the delivery agent *)

Section DeliveryMore.
Import Py Eff Agent Vocabulary.
Context {lib : Library}.

Ltac run_send :=
  unfold send_email, try_except, bind, lift, smtp, as_string, logger, ret,
    is_Exception;
  cbv beta iota; cbn [env mail].

Ltac next_op H :=
  cbn [env mail];
  match goal with
  | |- context [transport ?e ?op] => destruct (transport e op) eqn:H
  end;
  cbn [env mail].

Ltac write_mime H :=
  cbn [env mail];
  match goal with
  | |- context [mime_as_string ?e ?s ?f ?r ?h] =>
      destruct (mime_as_string e s f r h) as [written|?] eqn:H
  end;
  cbn [env mail].

Lemma send_email_true_session self subject body to_email w :
  fst (send_email self subject body to_email w) = Ok true ->
  exists recipient html text,
    or_else to_email (owner_email self) = Some recipient
    /\ recipient <> ""
    /\ body = PStr html
    /\ mime_as_string (env w) subject (from_email self) recipient html = Ok text
    /\ (forall op, In op (mail_session self recipient text) ->
                   transport (env w) op = None)
    /\ env (snd (send_email self subject body to_email w)) = env w
    /\ mail (snd (send_email self subject body to_email w))
       = (mail w ++ mail_session self recipient text)%list.
Proof.
  run_send.
  destruct (or_else to_email (owner_email self)) as [recipient|] eqn:Hrec;
    [|discriminate].
  destruct (truthy_opt (Some recipient)) eqn:Htruthy; cbn [negb]; cbv beta iota;
    [|discriminate].
  destruct body as [| | | |html| |]; cbn [MIMEText]; cbv beta iota;
    try discriminate.
  next_op H1; [discriminate|].
  next_op H2; [discriminate|].
  next_op H3; [discriminate|].
  write_mime Hmime; [|discriminate].
  next_op H4; [discriminate|].
  next_op H5; [discriminate|].
  intros _. exists recipient, html, written.
  repeat split; trivial.
  - intros ->. discriminate.
  - intros op [<-|[<-|[<-|[<-|[<-|[]]]]]]; assumption.
  - cbn [snd mail]. rewrite <- !app_assoc. reflexivity.
Qed.

Ltac session_so_far :=
  split; [reflexivity|];
  split; [rewrite <- ?app_assoc; rewrite ?app_nil_r; reflexivity|].

Ltac failure_is_last :=
  let op := fresh "op" in
  let e := fresh "e" in
  let Hin := fresh "Hin" in
  let Hfail := fresh "Hfail" in
  intros op e Hin Hfail; simpl in Hin;
  repeat (destruct Hin as [<-|Hin]); try contradiction; try congruence;
  split; reflexivity.

(** X13.  [send_email] always returns, and an operation the mail transport
    refuses is the last one attempted: nothing follows it (no [quit]),
    and the result is false. *)
Theorem send_email_stops_at_the_first_failure self subject body to_email w :
  exists b ops,
    fst (send_email self subject body to_email w) = Ok b
    /\ mail (snd (send_email self subject body to_email w)) = (mail w ++ ops)%list
    /\ forall op e,
         In op ops -> transport (env w) op = Some e ->
         b = false /\ ops = (removelast ops ++ [op])%list.
Proof.
  run_send.
  destruct (negb (truthy_opt (or_else to_email (owner_email self))));
    cbv beta iota.
  { exists false, []. session_so_far. failure_is_last. }
  destruct (MIMEText body) as [html|e0]; cbv beta iota.
  2:{ exists false, []. session_so_far. failure_is_last. }
  next_op H1.
  { eexists false, [_]. session_so_far. failure_is_last. }
  next_op H2.
  { eexists false, [_; _]. session_so_far. failure_is_last. }
  next_op H3.
  { eexists false, [_; _; _]. session_so_far. failure_is_last. }
  write_mime Hmime.
  2:{ eexists false, [_; _; _]. session_so_far. failure_is_last. }
  next_op H4.
  { eexists false, [_; _; _; _]. session_so_far. failure_is_last. }
  next_op H5.
  { eexists false, [_; _; _; _; _]. session_so_far. failure_is_last. }
  eexists true, [_; _; _; _; _]. session_so_far. failure_is_last.
Qed.

Lemma process_returns self pr_data w :
  exists b, fst (process_pr_notification self pr_data w) = Ok b.
Proof.
  unfold process_pr_notification, try_except.
  match goal with |- context [match ?c w with _ => _ end] =>
    destruct (c w) as [[b|e] w'] end.
  - eexists; reflexivity.
  - simpl. eexists; reflexivity.
Qed.

Lemma process_true_session self pr_data w w' :
  process_pr_notification self pr_data w = (Ok true, w') ->
  exists recipient text,
    owner_email self = Some recipient
    /\ recipient <> ""
    /\ mail w' = (mail w ++ mail_session self recipient text)%list
    /\ forall op, In op (mail_session self recipient text) ->
                  transport (env w) op = None.
Proof.
  intros Hrun.
  unfold process_pr_notification, try_except in Hrun.
  unfold bind at 1 in Hrun. unfold logger at 1 in Hrun. cbv beta iota in Hrun.
  unfold bind at 1 in Hrun.
  match type of Hrun with
  | context [generate_pr_email_content self pr_data ?w1] =>
      pose proof (generate_leaves_mail_and_tasks self pr_data w1) as Hframe;
      destruct (generate_pr_email_content self pr_data w1) as [[v|e] w2]
  end; cbn [snd env mail] in Hframe; cbv beta iota in Hrun;
    [|cbn [is_Exception] in Hrun; unfold bind, logger, ret in Hrun;
      cbv beta iota in Hrun; discriminate].
  destruct Hframe as (Henv & Hmail & _).
  unfold bind at 1, lift at 1 in Hrun.
  destruct (py_getitem v "subject") as [subject|e]; cbv beta iota in Hrun;
    [|cbn [is_Exception] in Hrun; unfold bind, logger, ret in Hrun;
      cbv beta iota in Hrun; discriminate].
  unfold bind at 1, lift at 1 in Hrun.
  destruct (py_getitem v "body") as [body|e]; cbv beta iota in Hrun;
    [|cbn [is_Exception] in Hrun; unfold bind, logger, ret in Hrun;
      cbv beta iota in Hrun; discriminate].
  unfold bind at 1 in Hrun.
  pose proof (send_email_true_session self subject body None w2) as Hsend.
  destruct (send_email self subject body None w2) as [[[|]|e] w3];
    cbn [fst snd] in Hsend; cbv beta iota in Hrun;
    unfold bind, logger, ret in Hrun; cbv beta iota in Hrun;
    cbn [is_Exception] in Hrun; try discriminate.
  injection Hrun as <-.
  destruct (Hsend eq_refl) as (recipient & html & text & Hrec & Hne & _ & _
                               & Hops & Henv3 & Hmail3).
  exists recipient, text. cbn [mail].
  unfold or_else in Hrec. cbn [truthy_opt] in Hrec.
  rewrite Hmail3, Hmail. rewrite Henv in Hops.
  repeat split; trivial.
Qed.

(** X14.  When [process_pr_notification] returns true, one complete mail
    session to the owner address was carried out (connect, starttls,
    login, sendmail, quit), every operation of which succeeded. *)
Theorem process_true_means_delivered self pr_data w :
  fst (process_pr_notification self pr_data w) = Ok true ->
  exists recipient text,
    owner_email self = Some recipient
    /\ recipient <> ""
    /\ mail (snd (process_pr_notification self pr_data w))
       = (mail w ++ mail_session self recipient text)%list
    /\ forall op, In op (mail_session self recipient text) ->
                  transport (env w) op = None.
Proof.
  intros Htrue.
  destruct (process_pr_notification self pr_data w) as [r w'] eqn:Hrun.
  cbn [fst] in Htrue. subst r. cbn [snd].
  exact (process_true_session self pr_data w w' Hrun).
Qed.




Lemma getitem_needs_an_object v k :
  is_object v = false -> exists e, py_getitem v k = Raise e.
Proof.
  destruct v; simpl; try discriminate; intros _; eexists; reflexivity.
Qed.

(** X16.  When the backend's text is JSON that is not an object but passes
    the two [in] tests (a string or a list that contains [subject] and
    [body]), [process_pr_notification] returns false and nothing is
    attempted on the mail transport. *)
Theorem non_object_reply_drops_the_notification self pr_data w rq text v :
  request_of self pr_data = Ok rq ->
  backend (env w) rq = Ok (Some text) ->
  json_loads text = Ok v ->
  is_object v = false ->
  py_contains "subject" v = Ok true ->
  py_contains "body" v = Ok true ->
  fst (process_pr_notification self pr_data w) = Ok false
  /\ mail (snd (process_pr_notification self pr_data w)) = mail w.
Proof.
  intros Hrq Hreply Hloads Hshape Hsubject Hbody.
  assert (Hrun : exists w', process_pr_notification self pr_data w = (Ok false, w')
                            /\ mail w' = mail w);
    [|destruct Hrun as (w' & -> & Hmail); split; [reflexivity|exact Hmail]].
  unfold process_pr_notification, try_except.
  unfold bind at 1. unfold logger at 1. cbv beta iota.
  unfold bind at 1.
  match goal with
  | |- context [generate_pr_email_content self pr_data ?w1] =>
      pose proof (generate_leaves_mail_and_tasks self pr_data w1) as Hframe;
      destruct (generate_cases self pr_data w1) as (v' & w2 & Hgen & _ & Hpass)
  end.
  rewrite Hgen in Hframe |- *. cbn [snd env mail] in Hframe.
  destruct Hframe as (_ & Hmail & _).
  assert (Hv : v' = v).
  { apply (Hpass rq text v Hrq Hreply Hloads); unfold lacks;
      [rewrite Hsubject | rewrite Hbody]; reflexivity. }
  subst v'. cbv beta iota.
  destruct (getitem_needs_an_object v "subject" Hshape) as [e He].
  unfold bind at 1, lift at 1. rewrite He. cbv beta iota.
  cbn [is_Exception]. unfold bind, logger, ret. cbv beta iota.
  eexists. split; [reflexivity|]. cbn [mail]. exact Hmail.
Qed.



End DeliveryMore.

(** ** Configuration *)

Section Configuration.
Import Py Eff Agent Vocabulary.
Context {lib : Library}.

Lemma missing_names (vars : list (string * option string)) (name : string) :
  In name (map fst (filter (fun var_value => negb (truthy_opt (snd var_value))) vars))
  <-> exists value, In (name, value) vars /\ truthy_opt value = false.
Proof.
  rewrite in_map_iff. split.
  - intros ([n v] & <- & Hin). apply filter_In in Hin as [Hin Hv].
    exists v. split; [exact Hin|]. now apply negb_true_iff in Hv.
  - intros (v & Hin & Hv). exists (name, v). split; [reflexivity|].
    apply filter_In. split; [exact Hin|]. simpl. now rewrite Hv.
Qed.

Lemma validate_config_passes env self :
  _validate_config env self = Ok tt ->
  truthy_opt (getenv env "AZURE_OPENAI_API_KEY") = true
  /\ truthy_opt (email_username self) = true
  /\ truthy_opt (email_password self) = true
  /\ truthy_opt (owner_email self) = true.
Proof.
  unfold _validate_config, required_vars. cbn [filter snd].
  destruct (truthy_opt (getenv env "AZURE_OPENAI_API_KEY"));
    destruct (truthy_opt (email_username self));
    destruct (truthy_opt (email_password self));
    destruct (truthy_opt (owner_email self));
    cbn; (discriminate || auto).
Qed.

(** X18.  [_validate_config] passes exactly when the four required values
    are non-empty; otherwise it raises a [ValueError] whose message lists
    the names of the missing ones and no other. *)
Theorem validate_config_names_what_is_missing env self :
  (_validate_config env self = Ok tt
   <-> forall name value,
         In (name, value) (required_vars env self) -> truthy_opt value = true)
  /\ (forall e,
        _validate_config env self = Raise e ->
        exists missing,
          e = PyExc ValueError
                ("Missing required environment variables: " ++ join ", " missing)
          /\ missing <> []
          /\ forall name,
               In name missing
               <-> exists value,
                     In (name, value) (required_vars env self)
                     /\ truthy_opt value = false).
Proof.
  unfold _validate_config.
  pose proof (missing_names (required_vars env self)) as Hmissing.
  destruct (map fst (filter _ (required_vars env self))) as [|m missing].
  - split.
    + split; [|reflexivity]. intros _ name value Hin.
      destruct (truthy_opt value) eqn:Hv; [reflexivity|].
      exfalso. apply (proj2 (Hmissing name)). eauto.
    + discriminate.
  - split.
    + split; [discriminate|]. intros Hall.
      destruct (proj1 (Hmissing m) (or_introl eq_refl)) as (v & Hin & Hv).
      rewrite (Hall _ _ Hin) in Hv. discriminate.
    + intros e [= <-]. exists (m :: missing).
      split; [reflexivity|]. split; [discriminate|exact Hmissing].
Qed.

Section Constructed.
Variable client_fault : string -> option string -> string -> option exn.
Variable py_int : string -> result Z.

Lemma constructed_agent env self :
  __init__ client_fault py_int env = Ok self ->
  _validate_config env self = Ok tt
  /\ py_int (getenv_or env "SMTP_PORT" "587") = Ok (smtp_port self)
  /\ email_username self = getenv env "EMAIL_USERNAME"
  /\ email_password self = getenv env "EMAIL_PASSWORD"
  /\ owner_email self = getenv env "OWNER_EMAIL"
  /\ from_email self = match getenv env "FROM_EMAIL" with
                       | Some v => Some v
                       | None => getenv env "EMAIL_USERNAME"
                       end.
Proof.
  unfold __init__.
  destruct (client_fault _ _ _); [discriminate|].
  destruct (py_int _) as [port|e]; [|discriminate].
  destruct (_validate_config env _) as [[]|e] eqn:Hvalid; [|discriminate].
  intros [= <-]. repeat split. exact Hvalid.
Qed.


End Constructed.
End Configuration.

(** ** The manual, test and status endpoints *)

Section Endpoints.
Import Py Eff Agent Api Vocabulary.
Context {lib : Library}.

(** X20.  The manual trigger answers 200 with status [success] when
    [process_pr_notification] returns true and raises the HTTP error 500
    [Failed to send PR notification email] when it returns false. *)
Theorem manual_trigger_reports_the_delivery agent pr_data w :
  exists b w1,
    process_pr_notification agent pr_data
      (snd (logger INFO
              ("Manual PR notification requested for: " ++ py_str (PDict pr_data)) w))
    = (Ok b, w1)
    /\ fst (send_pr_notification agent pr_data w)
       = if b
         then Ok [ ("status", PStr "success");
                   ("message", PStr "PR notification email sent successfully");
                   ("timestamp", PStr (isoformat (now w1))) ]
         else Raise (HTTPException 500 "Failed to send PR notification email").
Proof.
  unfold send_pr_notification, try_except.
  unfold bind at 1. cbv beta iota.
  destruct (logger INFO _ w) as [[[]|e] w0] eqn:Hlog; [|discriminate].
  cbn [snd]. unfold bind at 1.
  destruct (process_returns agent pr_data w0) as [b Hb].
  destruct (process_pr_notification agent pr_data w0) as [r w1].
  cbn [fst] in Hb. subst r. exists b, w1. split; [reflexivity|].
  destruct b; reflexivity.
Qed.

Lemma test_email_service_report agent w :
  exists d b w',
    test_email_service agent w = (Ok d, w')
    /\ lookup d "success" = Some (PBool b)
    /\ (b = true ->
        exists recipient text,
          owner_email agent = Some recipient
          /\ mail w' = (mail w ++ mail_session agent recipient text)%list).
Proof.
  unfold test_email_service, try_except.
  unfold bind at 1.
  pose proof (generate_leaves_mail_and_tasks agent test_pr_data w) as Hframe.
  destruct (generate_pr_email_content agent test_pr_data w) as [[v|e] w2];
    cbn [snd] in Hframe; cbv beta iota.
  2:{ cbn [is_Exception]. unfold bind, utcnow, ret. cbv beta iota.
      eexists _, false, _. split; [reflexivity|]. split; [reflexivity|discriminate]. }
  destruct Hframe as (Henv & Hmail & _).
  unfold bind at 1, lift at 1.
  destruct (py_getitem v "subject") as [subject|e]; cbv beta iota.
  2:{ cbn [is_Exception]. unfold bind, utcnow, ret. cbv beta iota.
      eexists _, false, _. split; [reflexivity|]. split; [reflexivity|discriminate]. }
  unfold bind at 1, lift at 1.
  destruct (py_getitem v "body") as [body|e]; cbv beta iota.
  2:{ cbn [is_Exception]. unfold bind, utcnow, ret. cbv beta iota.
      eexists _, false, _. split; [reflexivity|]. split; [reflexivity|discriminate]. }
  unfold bind at 1.
  match goal with
  | |- context [send_email agent ?s ?b None w2] =>
      pose proof (send_email_true_session agent s b None w2) as Hsend;
      destruct (send_email agent s b None w2) as [[sent|e] w3]
  end; cbn [fst snd] in Hsend; cbv beta iota.
  2:{ cbn [is_Exception]. unfold bind, utcnow, ret. cbv beta iota.
      eexists _, false, _. split; [reflexivity|]. split; [reflexivity|discriminate]. }
  unfold bind, utcnow, ret. cbv beta iota.
  eexists _, sent, _. split; [reflexivity|]. split; [reflexivity|].
  intros ->.
  destruct (Hsend eq_refl) as (recipient & html & text & Hrec & _ & _ & _ & _
                               & _ & Hmail3).
  exists recipient, text. cbn [mail]. rewrite Hmail3, Hmail.
  unfold or_else in Hrec. cbn [truthy_opt] in Hrec. split; [exact Hrec|reflexivity].
Qed.

(** X21.  The test endpoint always returns a report, whose [success] flag is
    a boolean; the flag is true only after a complete mail session to the
    owner address. *)
Theorem test_endpoint_never_fails agent w :
  exists d b,
    fst (test_ai_email_service agent w) = Ok d
    /\ lookup d "success" = Some (PBool b)
    /\ (b = true ->
        exists recipient text,
          owner_email agent = Some recipient
          /\ mail (snd (test_ai_email_service agent w))
             = (mail w ++ mail_session agent recipient text)%list).
Proof.
  unfold test_ai_email_service, try_except.
  unfold bind at 1 3. unfold logger at 1 3. cbv beta iota.
  match goal with
  | |- context [test_email_service agent ?w0] =>
      destruct (test_email_service_report agent w0) as (d & b & w' & Hrun & Hd & Hb)
  end.
  rewrite Hrun. cbv beta iota. exists d, b. repeat split; trivial.
Qed.

(** X22.  A handler built from an environment in which
    [GITHUB_WEBHOOK_SECRET] is unset or empty logs one warning at
    construction and then verifies every request, whatever the body and
    the signature header. *)
Theorem handler_without_secret_accepts_every_request env w :
  truthy_opt (getenv env "GITHUB_WEBHOOK_SECRET") = false ->
  exists self w',
    Webhook.__init__ env w = (Ok self, w')
    /\ only_logged
         [{| lvl := WARNING;
             text := "GITHUB_WEBHOOK_SECRET not set - webhook signature verification disabled" |}]
         w w'
    /\ forall payload signature w0,
         fst (Webhook.verify_signature self payload signature w0) = Ok true.
Proof.
  intros Hunset. unfold Webhook.__init__. cbn [Webhook.webhook_secret].
  rewrite Hunset. cbn [negb]. unfold bind, logger, ret. cbv beta iota.
  eexists _, _. split; [reflexivity|]. split.
  - unfold only_logged, same_activity. cbn. repeat split.
  - intros payload signature w0. rewrite verify_without_secret; [reflexivity|].
    exact Hunset.
Qed.

Section StatusEndpoint.
Variable client_fault : string -> option string -> string -> option exn.
Variable py_int : string -> result Z.

(** X23.  The answer of the status endpoint depends on the key, the mail
    credentials, the owner address and the webhook secret only through
    whether each is set: two environments that agree on that, and on the
    five values reported, get the same answer. *)
Theorem status_depends_on_secrets_only_through_presence env1 env2 w :
  (forall name, In name reported_names -> getenv env1 name = getenv env2 name) ->
  (forall name, In name guarded_names -> is_set env1 name = is_set env2 name) ->
  get_ai_email_status py_int env1 w = get_ai_email_status py_int env2 w.
Proof.
  intros Hvalues Hpresence.
  unfold get_ai_email_status, getenv_or.
  rewrite (Hpresence "AZURE_OPENAI_API_KEY"), (Hpresence "EMAIL_USERNAME"),
    (Hpresence "EMAIL_PASSWORD"), (Hpresence "OWNER_EMAIL"),
    (Hpresence "GITHUB_WEBHOOK_SECRET") by (simpl; tauto).
  rewrite (Hvalues "PROJECT_NAME"), (Hvalues "SMTP_SERVER"), (Hvalues "SMTP_PORT"),
    (Hvalues "ENDPOINT_URL"), (Hvalues "DEPLOYMENT_NAME") by (simpl; tauto).
  reflexivity.
Qed.

(** X24.  In an environment from which [__init__] builds an agent, the
    status endpoint answers [operational] and reports the agent's SMTP
    port. *)
Theorem constructed_agent_means_operational env self w :
  Agent.__init__ client_fault py_int env = Ok self ->
  exists d configuration,
    fst (get_ai_email_status py_int env w) = Ok d
    /\ lookup d "status" = Some (PStr "operational")
    /\ lookup d "configuration" = Some (PDict configuration)
    /\ lookup configuration "smtp_port" = Some (PInt (smtp_port self)).
Proof.
  intros Hinit.
  destruct (constructed_agent client_fault py_int env self Hinit)
    as (Hvalid & Hport & Huser & Hpass & Howner & _).
  destruct (validate_config_passes env self Hvalid) as (Hk & Hu & Hp & Ho).
  unfold get_ai_email_status, try_except, bind, lift, utcnow, ret, is_set.
  rewrite Hport. rewrite Huser in Hu. rewrite Hpass in Hp. rewrite Howner in Ho.
  rewrite Hk, Hu, Hp, Ho. cbv beta iota.
  eexists _, _. repeat split.
Qed.

End StatusEndpoint.
(** X25.  A verified request whose body is text that [json.loads] refuses is
    answered 400, whatever the event type. *)
Theorem malformed_json_is_a_bad_request self request w text e :
  fst (Webhook.verify_signature self (Webhook.body request)
         (Some (Webhook.headers_get (Webhook.headers request)
                  "X-Hub-Signature-256" "")) w)
  = Ok true ->
  decode_utf8 (Webhook.body request) = Ok text ->
  json_loads text = Raise e ->
  is_JSONDecodeError e = true ->
  fst (Webhook.handle_webhook self request w)
  = Raise (HTTPException 400 "Invalid JSON payload")
  /\ http_status (fst (github_webhook self request w)) = 400%Z.
Proof.
  intros Hv Hdec Hjson He.
  pose proof (verified_malformed_json self request w text e Hv Hdec Hjson He) as H.
  split; [exact H|].
  unfold github_webhook, try_except.
  destruct (Webhook.handle_webhook self request w) as [r w']. cbn [fst] in H.
  subst r. reflexivity.
Qed.

(** X26.  A verified request whose body is not UTF-8 is answered 500, not
    400: the decoding error is not the one the handler converts. *)
Theorem non_utf8_body_is_a_server_error self request w :
  fst (Webhook.verify_signature self (Webhook.body request)
         (Some (Webhook.headers_get (Webhook.headers request)
                  "X-Hub-Signature-256" "")) w)
  = Ok true ->
  utf8_valid (Webhook.body request) = false ->
  fst (Webhook.handle_webhook self request w)
  = Raise (HTTPException 500 "Internal server error")
  /\ http_status (fst (github_webhook self request w)) = 500%Z.
Proof.
  intros Hv Hutf.
  pose proof (verified_not_utf8 self request w Hv Hutf) as H.
  split; [exact H|].
  unfold github_webhook, try_except.
  destruct (Webhook.handle_webhook self request w) as [r w']. cbn [fst] in H.
  subst r. reflexivity.
Qed.

End Endpoints.

(** ** The deferred notification *)

Section Background.
Import Py Eff Vocabulary.
Context {lib : Library}.

(** X27.  The deferred notification always ends without raising and always
    leaves a verdict as its last log record; the verdict is at level INFO
    only when the record has a number and one complete mail session to the
    owner address was carried out. *)
Theorem background_task_logs_its_verdict agent pr_data w :
  exists w' earlier verdict,
    Webhook.process_pr_notification agent pr_data w = (Ok tt, w')
    /\ log w' = (earlier ++ [verdict])%list
    /\ (lvl verdict = INFO ->
        exists number recipient message,
          lookup pr_data "number" = Some number
          /\ text verdict
             = "Successfully sent PR notification for #" ++ py_str number
          /\ Agent.owner_email agent = Some recipient
          /\ mail w' = (mail w ++ mail_session agent recipient message)%list).
Proof.
  unfold Webhook.process_pr_notification, try_except.
  unfold bind at 1, lift at 1. cbn [py_getitem].
  destruct (lookup pr_data "number") as [number|] eqn:Hnumber; cbv beta iota.
  2:{ cbn [is_Exception]. unfold logger.
      eexists _, _, _. split; [reflexivity|]. cbn [log lvl].
      split; [reflexivity|discriminate]. }
  unfold bind at 1. unfold logger at 1. cbv beta iota.
  unfold bind at 1.
  match goal with
  | |- context [Agent.process_pr_notification agent pr_data ?w0] =>
      destruct (process_returns agent pr_data w0) as [b Hb];
      pose proof (process_true_session agent pr_data w0) as Hsession;
      destruct (Agent.process_pr_notification agent pr_data w0) as [r w1]
  end.
  cbn [fst] in Hb. subst r. cbv beta iota.
  destruct b; unfold logger; eexists _, _, _;
    (split; [reflexivity|]); cbn [log lvl text];
    (split; [reflexivity|]); [|discriminate].
  intros _.
  destruct (Hsession w1 eq_refl) as (recipient & message & Howner & _ & Hmail & _).
  exists number, recipient, message. cbn [mail] in Hmail |- *.
  repeat split; trivial.
Qed.

(** X28.  A record without a [number] is never handed to the agent: the
    deferred notification logs one error naming the key and changes
    nothing else. *)
Theorem background_task_needs_a_number agent pr_data w :
  lookup pr_data "number" = None ->
  exists w',
    Webhook.process_pr_notification agent pr_data w = (Ok tt, w')
    /\ only_logged
         [{| lvl := ERROR;
             text := "Error in background PR notification processing: 'number'" |}]
         w w'.
Proof.
  intros Hnumber.
  unfold Webhook.process_pr_notification, try_except.
  unfold bind at 1, lift at 1. cbn [py_getitem]. rewrite Hnumber.
  cbv beta iota. cbn [is_Exception]. unfold logger.
  eexists. split; [reflexivity|].
  unfold only_logged, same_activity. cbn.
  repeat split; reflexivity.
Qed.

(** X29.  Every record the extractor returns is handed to the agent when
    its deferred notification runs: the verdict is the agent's, success
    or failure, under the number of the pull request. *)
Theorem queued_record_reaches_the_agent self agent payload w0 record w :
  fst (Webhook.extract_pr_data self payload w0) = Ok (PDict record) ->
  exists b w1 w',
    Agent.process_pr_notification agent record
      (snd (logger INFO
              ("Processing background PR notification for #"
               ++ py_str (field_or payload ["pull_request"; "number"] PNone)) w))
    = (Ok b, w1)
    /\ Webhook.process_pr_notification agent record w = (Ok tt, w')
    /\ log w'
       = (log w1
          ++ [if b
              then {| lvl := INFO;
                      text := "Successfully sent PR notification for #"
                              ++ py_str (field_or payload
                                           ["pull_request"; "number"] PNone) |}
              else {| lvl := ERROR;
                      text := "Failed to send PR notification for #"
                              ++ py_str (field_or payload
                                           ["pull_request"; "number"] PNone) |}])%list.
Proof.
  intros Hrecord. rewrite extract_result in Hrecord.
  destruct (relevant payload && well_formed payload); [|discriminate].
  injection Hrecord as <-.
  unfold Webhook.process_pr_notification, try_except.
  unfold bind at 1, lift at 1.
  change (py_getitem (PDict (expected_record payload (now w0))) "number")
    with (Ok (A := pyval) (field_or payload ["pull_request"; "number"] PNone)).
  cbv beta iota.
  unfold bind at 1.
  destruct (logger INFO _ w) as [[[]|e] wl] eqn:Hlog; [|discriminate].
  cbn [snd]. unfold bind at 1.
  destruct (process_returns agent (expected_record payload (now w0)) wl) as [b Hb].
  destruct (Agent.process_pr_notification agent _ wl) as [r w1].
  cbn [fst] in Hb. subst r. cbv beta iota.
  exists b, w1. destruct b; unfold logger; eexists;
    (split; [reflexivity|]); (split; [reflexivity|]); reflexivity.
Qed.

End Background.

(** ** What the client of the webhook endpoint receives *)

Section Responses.
Import Py Eff Webhook Api Vocabulary.
Context {lib : Library}.

Lemma github_webhook_cases self request w :
  (forall s code detail, json_loads s <> Raise (HTTPException code detail)) ->
  exists r w1,
    github_webhook self request w = (r, w1)
    /\ ((exists d,
           r = Ok d
           /\ (lookup d "status" = Some (PStr "success")
               \/ lookup d "status" = Some (PStr "ignored")))
        \/ (exists e, In e webhook_rejections /\ r = Raise e)).
Proof.
  intros Hlib. unfold github_webhook, try_except.
  destruct (handle_webhook_outcomes self request w Hlib)
    as [(d & Hd & Hs)|(e & He & Hr)];
    destruct (handle_webhook self request w) as [r w']; simpl in *; subst r.
  - eexists _, _. split; [reflexivity|]. left. exists d. split; trivial.
  - destruct He as [<-|[<-|[<-|[]]]];
      (eexists _, _; split; [reflexivity|]; right; eexists;
       split; [|reflexivity]; simpl; auto).
Qed.

(** X30.  What the client of the webhook endpoint receives, after the
    registered exception handlers: status 200 with an acknowledgment whose
    status is [success] or [ignored], or status 403, 400 or 500 with a
    content of exactly a fixed [detail] and a timestamp.  The endpoint's
    own detail for unexpected errors is never sent. *)
Theorem webhook_client_receives_fixed_details self request w :
  (forall s code detail, json_loads s <> Raise (HTTPException code detail)) ->
  exists code content w',
    exception_handlers (fst (github_webhook self request w))
      (snd (github_webhook self request w))
    = (Ok (code, content), w')
    /\ ((code = 200%Z
         /\ (lookup content "status" = Some (PStr "success")
             \/ lookup content "status" = Some (PStr "ignored")))
        \/ (exists detail stamp,
              In (code, detail)
                 [ (403%Z, "Invalid signature");
                   (400%Z, "Invalid JSON payload");
                   (500%Z, "Internal server error") ]
              /\ content = [("detail", PStr detail); ("timestamp", PStr stamp)])).
Proof.
  intros Hlib.
  destruct (github_webhook_cases self request w Hlib)
    as (r & w1 & -> & [(d & -> & Hs)|(e & He & ->)]); cbn [fst snd].
  - unfold exception_handlers, ret. eexists _, _, _. split; [reflexivity|].
    left. split; [reflexivity|exact Hs].
  - destruct He as [<-|[<-|[<-|[]]]];
      unfold exception_handlers, bind, logger, utcnow, ret; cbv beta iota;
      (eexists _, _, _; split; [reflexivity|]; right; eexists _, _;
       split; [|reflexivity]; simpl; auto).
Qed.

End Responses.

(** ** Concrete runs *)

#[local] Existing Instance Samples.library.

Section Runs.
Import Py Eff Vocabulary Samples.

(** The SHA-256 of [abc] (FIPS 180-4) and the HMAC-SHA256 of RFC 4231,
    test case 2. *)
Lemma sha256_abc :
  Sha256.hex (Sha256.digest (Sha256.bytes_of "abc"))
  = "ba7816bf8f01cfea414140de5dae2223b00361a396177a9cb410ff61f20015ad".
Proof. vm_compute. reflexivity. Qed.

Lemma hmac_sha256_rfc4231_case2 :
  hmac_sha256_hexdigest "Jefe" "what do ya want for nothing?"
  = "5bdcc146bf60754e6a042426089575c75a003f089d2739839dec58b964ec3843".
Proof. vm_compute. reflexivity. Qed.

(** A [ping] signed with the configured secret verifies. *)
Lemma signed_ping_verifies :
  fst (Webhook.verify_signature keyed_handler "{}"
         (Some signature_of_empty_object) quiet_world)
  = Ok true.
Proof. vm_compute. reflexivity. Qed.

(** PR #42 "Add logging": the fallback subject starts with the bell. *)
Lemma fallback_subject_of_pr42 :
  exists d,
    fst (Agent._generate_fallback_email agent pr42 quiet_world) = Ok d
    /\ lookup d "subject" = Some (PStr "🔔 New PR #42: Add logging")
    /\ lookup d "subject" <> Some (PStr "New PR #42: Add logging").
Proof.
  eexists. split; [reflexivity|]. split; [reflexivity|]. discriminate.
Qed.

(** A [ping] whose body is not JSON is answered 400, with no secret
    configured and so with verification passed. *)
Lemma ping_not_json_is_rejected :
  Webhook.headers_get (Webhook.headers (ping_with "not json" []))
    "X-GitHub-Event" "" = "ping"
  /\ fst (Webhook.verify_signature open_handler "not json" (Some "") quiet_world)
     = Ok true
  /\ fst (Webhook.handle_webhook open_handler (ping_with "not json" []) quiet_world)
     = Raise (HTTPException 400 "Invalid JSON payload").
Proof.
  repeat split.
Qed.

(** A [ping] whose body is the byte 255 is answered 500. *)
Lemma ping_not_utf8_is_an_internal_error :
  fst (Webhook.handle_webhook open_handler
         (ping_with (String (ascii_of_nat 255) EmptyString) []) quiet_world)
  = Raise (HTTPException 500 "Internal server error").
Proof.
  reflexivity.
Qed.


(** A payload that is valid JSON, has action [opened] and a [null]
    [pull_request]: the extractor returns no record. *)
Lemma opened_null_pull_request_gives_no_record :
  json_loads text_null_pull_request
  = Ok (PDict [("action", PStr "opened"); ("pull_request", PNone)])
  /\ fst (Webhook.extract_pr_data open_handler
            (PDict [("action", PStr "opened"); ("pull_request", PNone)])
            quiet_world)
     = Ok PNone.
Proof.
  split; vm_compute; reflexivity.
Qed.

(** The synchronous path for PR #42 with the backend down: the templated
    mail goes out over one session. *)
Lemma pr42_with_backend_down :
  fst (Agent.process_pr_notification agent pr42 quiet_world) = Ok true
  /\ map (fun op => match op with
                    | SMTP_connect _ _ => "connect"
                    | SMTP_starttls => "starttls"
                    | SMTP_login _ _ => "login"
                    | SMTP_sendmail _ to_addr _ => "sendmail to " ++ to_addr
                    | SMTP_quit => "quit"
                    end)
         (mail (snd (Agent.process_pr_notification agent pr42 quiet_world)))
     = ["connect"; "starttls"; "login"; "sendmail to owner@example.com"; "quit"].
Proof.
  split; vm_compute; reflexivity.
Qed.

Lemma verify_secret_and_header_witness :
  fst (Webhook.verify_signature open_handler "{}" (Some "sha256=00") quiet_world)
  = Ok true
  /\ fst (Webhook.verify_signature keyed_handler "{}" None quiet_world) = Ok false
  /\ fst (Webhook.verify_signature keyed_handler "{}" (Some "") quiet_world) = Ok false.
Proof.
  split; [|split].
  - apply (proj1 (verify_secret_and_header open_handler "{}"
                    (Some "sha256=00") quiet_world)).
    reflexivity.
  - apply (proj2 (verify_secret_and_header keyed_handler "{}" None quiet_world)).
    + reflexivity.
    + left; reflexivity.
  - apply (proj2 (verify_secret_and_header keyed_handler "{}" (Some "") quiet_world)).
    + reflexivity.
    + right; reflexivity.
Defined.

Lemma verify_rejects_other_algorithms_witness :
  algorithm_component
    "sha1=608b0c406f3dda19702d71a048483b8c331283106d80a208e3cf43dbde505286"
  = "sha1"
  /\ fst (Webhook.verify_signature keyed_handler "{}"
            (Some "sha1=608b0c406f3dda19702d71a048483b8c331283106d80a208e3cf43dbde505286")
            quiet_world)
     = Ok false.
Proof.
  split; [reflexivity|].
  apply (verify_rejects_other_algorithms keyed_handler "{}"
           "sha1=608b0c406f3dda19702d71a048483b8c331283106d80a208e3cf43dbde505286"
           quiet_world).
  - reflexivity.
  - vm_compute. discriminate.
Defined.

Lemma extract_ignores_other_actions_witness :
  fst (Webhook.extract_pr_data open_handler
         (PDict [("action", PStr "closed");
                 ("pull_request", PDict [("number", PInt 42)])])
         quiet_world)
  = Ok PNone
  /\ fst (Webhook.extract_pr_data open_handler (PDict []) quiet_world) = Ok PNone.
Proof.
  split.
  - apply (extract_ignores_other_actions open_handler
             (PDict [("action", PStr "closed");
                     ("pull_request", PDict [("number", PInt 42)])])
             quiet_world); simpl; discriminate.
  - apply (extract_ignores_other_actions open_handler (PDict []) quiet_world);
      simpl; discriminate.
Defined.

Lemma extract_opened_fields_witness :
  (exists record,
     fst (Webhook.extract_pr_data open_handler
            (PDict [("action", PStr "opened");
                    ("pull_request",
                     PDict [("number", PInt 42);
                            ("title", PStr "Add logging");
                            ("head", PDict [("ref", PStr "feature/log")])])])
            quiet_world)
     = Ok (PDict record)
     /\ lookup record "title" = Some (PStr "Add logging")
     /\ lookup record "author" = Some (PStr "Unknown")
     /\ lookup record "branch_from" = Some (PStr "feature/log")
     /\ lookup record "branch_to" = Some (PStr "main"))
  /\ fst (Webhook.extract_pr_data open_handler
            (PDict [("action", PStr "opened");
                    ("pull_request", PDict [("user", PNone)])])
            quiet_world)
     = Ok PNone.
Proof.
  split.
  - apply (proj1 (extract_opened_fields open_handler
                    (PDict [("action", PStr "opened");
                            ("pull_request",
                             PDict [("number", PInt 42);
                                    ("title", PStr "Add logging");
                                    ("head", PDict [("ref", PStr "feature/log")])])])
                    quiet_world eq_refl)).
    reflexivity.
  - apply (proj2 (extract_opened_fields open_handler
                    (PDict [("action", PStr "opened");
                            ("pull_request", PDict [("user", PNone)])])
                    quiet_world eq_refl)).
    reflexivity.
Defined.

Lemma fallback_deterministic_witness :
  now quiet_world = now busy_world
  /\ fst (Agent._generate_fallback_email agent pr42 quiet_world)
     = fst (Agent._generate_fallback_email agent pr42 busy_world).
Proof.
  split; [reflexivity|].
  apply (fallback_deterministic agent pr42 quiet_world busy_world).
  reflexivity.
Defined.

Lemma send_without_recipient_witness :
  Agent.send_email agent_without_owner (PStr "subject") (PStr "<p>body</p>") None
    quiet_world
  = (Ok false, snd (logger ERROR "No recipient email specified" quiet_world))
  /\ mail (snd (Agent.send_email agent_without_owner (PStr "subject")
                  (PStr "<p>body</p>") None quiet_world))
     = [].
Proof.
  apply (send_without_recipient agent_without_owner (PStr "subject")
           (PStr "<p>body</p>") None quiet_world); reflexivity.
Defined.

Lemma signature_checked_before_parsing_witness :
  fst (Webhook.handle_webhook keyed_handler (ping_with "not json" []) quiet_world)
  = Raise (HTTPException 403 "Invalid signature")
  /\ fst (Webhook.verify_signature open_handler "not json" (Some "") quiet_world)
     = Ok true.
Proof.
  split.
  - apply (proj1 (signature_checked_before_parsing keyed_handler
                    (ping_with "not json" []) quiet_world)).
    reflexivity.
  - apply (proj2 (signature_checked_before_parsing open_handler
                    (ping_with "not json" []) quiet_world)
             "Invalid JSON payload").
    reflexivity.
Defined.

Lemma ping_acknowledged_witness :
  exists w',
    Webhook.handle_webhook keyed_handler
      (ping_with "{}" [("X-Hub-Signature-256", signature_of_empty_object)])
      quiet_world
    = (Ok [ ("status", PStr "success");
            ("message", PStr "Webhook endpoint is working");
            ("timestamp", PStr "2024-05-07T12:00:00") ], w')
    /\ same_activity quiet_world w'
    /\ ticks w' = 1
    /\ log w' = [{| lvl := INFO; text := "Received GitHub webhook: ping" |}].
Proof.
  apply (ping_acknowledged keyed_handler
           (ping_with "{}" [("X-Hub-Signature-256", signature_of_empty_object)])
           quiet_world "{}" (PDict [])).
  - reflexivity.
  - vm_compute. reflexivity.
  - reflexivity.
  - reflexivity.
Defined.


End Runs.

(** ** More concrete runs *)

Section MoreRuns.
Import Py Eff Vocabulary Samples MoreSamples.

Lemma verify_accepts_exactly_the_digest_witness :
  fst (Webhook.verify_signature keyed_handler "{}"
         (Some signature_of_empty_object) quiet_world)
  = Ok true
  /\ (fst (Webhook.verify_signature keyed_handler "{}"
             (Some "sha256=608B0C406F3DDA19702D71A048483B8C331283106D80A208E3CF43DBDE505286")
             quiet_world)
      = Ok true -> False).
Proof.
  split.
  - apply (proj2 (verify_accepts_exactly_the_digest keyed_handler "s3cr3t" "{}"
                    signature_of_empty_object quiet_world eq_refl
                    ltac:(discriminate))).
    vm_compute. reflexivity.
  - intros H.
    apply (proj1 (verify_accepts_exactly_the_digest keyed_handler "s3cr3t" "{}" _
                    quiet_world eq_refl ltac:(discriminate))) in H.
    vm_compute in H. discriminate.
Defined.

Lemma extract_returns_record_iff_witness :
  (exists record,
     fst (Webhook.extract_pr_data open_handler opened_payload quiet_world)
     = Ok (PDict record))
  /\ ((exists record,
         fst (Webhook.extract_pr_data open_handler
                (PDict [("action", PStr "opened"); ("pull_request", PNone)])
                quiet_world)
         = Ok (PDict record)) -> False).
Proof.
  split.
  - apply (proj2 (extract_returns_record_iff open_handler opened_payload quiet_world)).
    reflexivity.
  - intros H.
    apply (proj1 (extract_returns_record_iff open_handler _ quiet_world)) in H.
    discriminate.
Defined.

Lemma extract_builds_expected_record_witness :
  fst (Webhook.extract_pr_data open_handler opened_payload quiet_world)
  = Ok (PDict (expected_record opened_payload noon))
  /\ lookup (expected_record opened_payload noon) "description"
     = Some (PStr "No description provided")
  /\ lookup (expected_record opened_payload noon) "number" = Some (PInt 42).
Proof.
  split; [|split; reflexivity].
  apply (extract_builds_expected_record open_handler opened_payload quiet_world);
    reflexivity.
Defined.

Lemma extract_record_shape_witness :
  lookup (expected_record opened_payload noon) "files_changed" = Some (PList [])
  /\ lookup (expected_record opened_payload noon) "webhook_timestamp"
     = Some (PStr "2024-05-07T12:00:00").
Proof.
  destruct (extract_record_shape open_handler opened_payload quiet_world
              (expected_record opened_payload noon) eq_refl)
    as (_ & Hfiles & _ & Hstamp & _).
  split; [exact Hfiles|exact Hstamp].
Defined.

Lemma irrelevant_pull_request_is_ignored_witness :
  exists w',
    Webhook.handle_webhook open_handler (event_with "pull_request" "{}") quiet_world
    = (Ok [ ("status", PStr "ignored");
            ("message", PStr "PR event not relevant for notification");
            ("timestamp", PStr "2024-05-07T12:00:00") ], w')
    /\ background w' = [].
Proof.
  apply (irrelevant_pull_request_is_ignored open_handler
           (event_with "pull_request" "{}") quiet_world "{}" (PDict []));
    reflexivity.
Defined.

Lemma relevant_pull_request_is_queued_witness :
  exists w',
    Webhook.handle_webhook open_handler (event_with "pull_request" text_opened)
      quiet_world
    = (Ok [ ("status", PStr "success");
            ("message", PStr "PR notification queued for processing");
            ("pr_number", PInt 42);
            ("pr_title", PStr "Add logging");
            ("timestamp", PStr "2024-05-07T12:00:01.000250") ], w')
    /\ background w' = [PDict (expected_record opened_payload noon)].
Proof.
  apply (relevant_pull_request_is_queued open_handler
           (event_with "pull_request" text_opened) quiet_world
           text_opened opened_payload); reflexivity.
Defined.

Lemma other_events_are_ignored_witness :
  exists w',
    Webhook.handle_webhook open_handler (event_with "push" "{}") quiet_world
    = (Ok [ ("status", PStr "ignored");
            ("message", PStr "Event type push not handled");
            ("timestamp", PStr "2024-05-07T12:00:00") ], w')
    /\ background w' = [].
Proof.
  apply (other_events_are_ignored open_handler (event_with "push" "{}")
           quiet_world "{}" (PDict [])); try reflexivity; discriminate.
Defined.

Lemma table_never_raises_http (s : string) (code : Z) (detail : string) :
  json_loads s <> Raise (HTTPException code detail).
Proof.
  cbn. unfold loads_by_table. destruct (lookup json_table s); discriminate.
Qed.

Lemma github_webhook_outcomes_witness :
  (exists d,
     fst (Api.github_webhook keyed_handler (event_with "push" "not json") quiet_world)
     = Ok d
     /\ (lookup d "status" = Some (PStr "success")
         \/ lookup d "status" = Some (PStr "ignored")))
  \/ (exists e,
        In e webhook_rejections
        /\ fst (Api.github_webhook keyed_handler (event_with "push" "not json")
                  quiet_world)
           = Raise e).
Proof.
  apply (github_webhook_outcomes keyed_handler (event_with "push" "not json")
           quiet_world table_never_raises_http).
Defined.

Lemma process_true_means_delivered_witness :
  exists recipient text,
    Agent.owner_email agent = Some recipient
    /\ recipient <> ""
    /\ mail (snd (Agent.process_pr_notification agent pr42 quiet_world))
       = mail_session agent recipient text
    /\ forall op, In op (mail_session agent recipient text) ->
                  transport (env quiet_world) op = None.
Proof.
  apply (process_true_means_delivered agent pr42 quiet_world).
  vm_compute. reflexivity.
Defined.


Lemma non_object_reply_drops_the_notification_witness :
  fst (Agent.process_pr_notification (lib := MoreSamples.library) agent pr42
         (world_with (Ok (Some text_json_string))))
  = Ok false
  /\ mail (snd (Agent.process_pr_notification (lib := MoreSamples.library) agent pr42
                  (world_with (Ok (Some text_json_string)))))
     = [].
Proof.
  destruct (request_of (lib := MoreSamples.library) agent pr42) as [rq|e] eqn:Hrq;
    [|discriminate].
  apply (non_object_reply_drops_the_notification (lib := MoreSamples.library)
           agent pr42 (world_with (Ok (Some text_json_string))) rq
           text_json_string (PStr "subject and body"));
    try reflexivity. exact Hrq.
Defined.

Lemma validate_config_names_what_is_missing_witness :
  Agent._validate_config env_without_owner configured_agent = Ok tt
  /\ exists missing,
       Agent._validate_config env_without_owner agent_without_owner
       = Raise (PyExc ValueError
                  ("Missing required environment variables: " ++ join ", " missing))
       /\ (In "OWNER_EMAIL" missing)
       /\ ~ In "EMAIL_USERNAME" missing.
Proof.
  split.
  - apply (proj1 (validate_config_names_what_is_missing env_without_owner
                    configured_agent)).
    intros name value Hin. unfold Agent.required_vars in Hin. simpl in Hin.
    repeat (destruct Hin as [Heq|Hin]; [injection Heq as <- <-; reflexivity|]).
    destruct Hin.
  - destruct (proj2 (validate_config_names_what_is_missing env_without_owner
                       agent_without_owner) _ eq_refl)
      as (missing & Hmsg & _ & Hnames).
    exists missing. split; [rewrite <- Hmsg; reflexivity|]. split.
    + apply Hnames. exists None. split; [simpl; auto|reflexivity].
    + intros Hin. apply Hnames in Hin. destruct Hin as (value & Hin & Hv).
      unfold Agent.required_vars in Hin. simpl in Hin.
      repeat (destruct Hin as [Heq|Hin];
              [inversion Heq; subst value; vm_compute in Hv; discriminate Hv|]).
      destruct Hin.
Defined.



Lemma handler_without_secret_accepts_every_request_witness :
  exists self w',
    Webhook.__init__ env_without_owner quiet_world = (Ok self, w')
    /\ log w'
       = [{| lvl := WARNING;
             text := "GITHUB_WEBHOOK_SECRET not set - webhook signature verification disabled" |}]
    /\ fst (Webhook.verify_signature self "not json" (Some "sha1=00") w') = Ok true.
Proof.
  destruct (handler_without_secret_accepts_every_request env_without_owner
              quiet_world eq_refl)
    as (self & w' & Hrun & Hlog & Hverify).
  exists self, w'. split; [exact Hrun|]. split.
  - destruct Hlog as (_ & _ & _ & Hlog). exact Hlog.
  - apply Hverify.
Defined.

Lemma status_depends_on_secrets_only_through_presence_witness :
  Api.get_ai_email_status int_of_digits complete_env quiet_world
  = Api.get_ai_email_status int_of_digits other_secrets_env quiet_world.
Proof.
  apply (status_depends_on_secrets_only_through_presence int_of_digits
           complete_env other_secrets_env quiet_world);
    intros name Hin; simpl in Hin;
    repeat (destruct Hin as [<-|Hin]; [reflexivity|]); destruct Hin.
Defined.

Lemma constructed_agent_means_operational_witness :
  exists d configuration,
    fst (Api.get_ai_email_status int_of_digits complete_env quiet_world) = Ok d
    /\ lookup d "status" = Some (PStr "operational")
    /\ lookup d "configuration" = Some (PDict configuration)
    /\ lookup configuration "smtp_port" = Some (PInt 2525).
Proof.
  apply (constructed_agent_means_operational needs_a_key int_of_digits complete_env
           configured_agent quiet_world).
  reflexivity.
Defined.

Lemma malformed_json_is_a_bad_request_witness :
  fst (Webhook.handle_webhook open_handler (event_with "push" "not json") quiet_world)
  = Raise (HTTPException 400 "Invalid JSON payload")
  /\ Api.http_status
       (fst (Api.github_webhook open_handler (event_with "push" "not json")
               quiet_world))
     = 400%Z.
Proof.
  apply (malformed_json_is_a_bad_request open_handler (event_with "push" "not json")
           quiet_world "not json"
           (PyExc JSONDecodeError "Expecting value: line 1 column 1 (char 0)"));
    reflexivity.
Defined.

Lemma non_utf8_body_is_a_server_error_witness :
  fst (Webhook.handle_webhook open_handler
         (event_with "ping" (String (ascii_of_nat 255) EmptyString)) quiet_world)
  = Raise (HTTPException 500 "Internal server error")
  /\ Api.http_status
       (fst (Api.github_webhook open_handler
               (event_with "ping" (String (ascii_of_nat 255) EmptyString))
               quiet_world))
     = 500%Z.
Proof.
  apply (non_utf8_body_is_a_server_error open_handler
           (event_with "ping" (String (ascii_of_nat 255) EmptyString)) quiet_world);
    reflexivity.
Defined.

Lemma background_task_needs_a_number_witness :
  lookup [("title", PStr "Add logging")] "number" = None
  /\ exists w',
       Webhook.process_pr_notification agent [("title", PStr "Add logging")]
         quiet_world
       = (Ok tt, w')
       /\ only_logged
            [{| lvl := ERROR;
                text := "Error in background PR notification processing: 'number'" |}]
            quiet_world w'.
Proof.
  split; [reflexivity|].
  apply (background_task_needs_a_number agent [("title", PStr "Add logging")]
           quiet_world).
  reflexivity.
Defined.

Lemma queued_record_reaches_the_agent_witness :
  fst (Webhook.extract_pr_data open_handler opened_payload quiet_world)
  = Ok (PDict (expected_record opened_payload noon))
  /\ exists b w1 w',
       Agent.process_pr_notification agent (expected_record opened_payload noon)
         (snd (logger INFO
                 ("Processing background PR notification for #"
                  ++ py_str (field_or opened_payload ["pull_request"; "number"] PNone))
                 quiet_world))
       = (Ok b, w1)
       /\ Webhook.process_pr_notification agent (expected_record opened_payload noon)
            quiet_world
          = (Ok tt, w')
       /\ log w'
          = (log w1
             ++ [if b
                 then {| lvl := INFO;
                         text := "Successfully sent PR notification for #"
                                 ++ py_str (field_or opened_payload
                                              ["pull_request"; "number"] PNone) |}
                 else {| lvl := ERROR;
                         text := "Failed to send PR notification for #"
                                 ++ py_str (field_or opened_payload
                                              ["pull_request"; "number"] PNone) |}])%list.
Proof.
  split; [reflexivity|].
  apply (queued_record_reaches_the_agent open_handler agent opened_payload
           quiet_world (expected_record opened_payload noon) quiet_world).
  reflexivity.
Defined.

Lemma webhook_client_receives_fixed_details_witness :
  exists code content w',
    Api.exception_handlers
      (fst (Api.github_webhook keyed_handler (event_with "push" "not json")
              quiet_world))
      (snd (Api.github_webhook keyed_handler (event_with "push" "not json")
              quiet_world))
    = (Ok (code, content), w')
    /\ ((code = 200%Z
         /\ (lookup content "status" = Some (PStr "success")
             \/ lookup content "status" = Some (PStr "ignored")))
        \/ (exists detail stamp,
              In (code, detail)
                 [ (403%Z, "Invalid signature");
                   (400%Z, "Invalid JSON payload");
                   (500%Z, "Internal server error") ]
              /\ content = [("detail", PStr detail); ("timestamp", PStr stamp)])).
Proof.
  apply (webhook_client_receives_fixed_details keyed_handler
           (event_with "push" "not json") quiet_world table_never_raises_http).
Defined.

End MoreRuns.
